(** * Assignment Evaluation API (src/app.py): a shallow embedding

    The FastAPI service forwards a typed request to an external language
    model and normalises the model's text answer into typed JSON responses.
    This file embeds the parts of [src/app.py] the specification talks about:
    Python [str] as lists of Unicode code points, the [str] methods the
    normalisers use, a model of CPython's [json.loads] (the C scanner of
    [Modules/_json.c]), Python [float()], the pydantic models, the prompt
    builders and the endpoints, with the exception handling of each. *)

From Stdlib Require Import ZArith NArith String Ascii Bool Lia List.
From Stdlib Require Import Floats.
Import ListNotations.
#[global] Set Warnings "-register-all".

(** ** Python [str] *)

Module PyStr.

(** A Python [str] is a sequence of code points. *)
Definition pystr := list N.

(** The ASCII text of a Rocq string literal as a Python [str]. *)
Definition ustr (s : string) : pystr :=
  map (fun a => N.of_nat (nat_of_ascii a)) (list_ascii_of_string s).

(** [str.isspace] on one code point (the characters of Unicode
    bidirectional class WS, B or S, or of category Zs). *)
Definition isspace (c : N) : bool :=
  ((9 <=? c) && (c <=? 13))%N || ((28 <=? c) && (c <=? 32))%N
  || (c =? 133)%N || (c =? 160)%N || (c =? 5760)%N
  || ((8192 <=? c) && (c <=? 8202))%N || (c =? 8232)%N || (c =? 8233)%N
  || (c =? 8239)%N || (c =? 8287)%N || (c =? 12288)%N.

(** The line boundaries of [str.splitlines]. *)
Definition is_linebreak (c : N) : bool :=
  ((10 <=? c) && (c <=? 13))%N || ((28 <=? c) && (c <=? 30))%N
  || (c =? 133)%N || (c =? 8232)%N || (c =? 8233)%N.

Fixpoint lstrip (s : pystr) : pystr :=
  match s with
  | c :: r => if isspace c then lstrip r else s
  | [] => []
  end.

Definition rstrip (s : pystr) : pystr := rev (lstrip (rev s)).

(** [str.strip()] *)
Definition strip (s : pystr) : pystr := rstrip (lstrip s).

(** [str.startswith(p)] *)
Fixpoint startswith (p s : pystr) : bool :=
  match p, s with
  | [], _ => true
  | a :: p', b :: s' => N.eqb a b && startswith p' s'
  | _ :: _, [] => false
  end.

(** [str.splitlines()]: the line being read is kept reversed in [cur];
    ["\r\n"] is one boundary; no empty line follows a final boundary. *)
Fixpoint splitlines_aux (cur : pystr) (s : pystr) : list pystr :=
  match s with
  | [] => match cur with [] => [] | _ => [rev cur] end
  | c :: r =>
      if N.eqb c 13 then
        match r with
        | d :: r' => if N.eqb d 10 then rev cur :: splitlines_aux [] r'
                     else rev cur :: splitlines_aux [] r
        | [] => rev cur :: splitlines_aux [] r
        end
      else if is_linebreak c then rev cur :: splitlines_aux [] r
      else splitlines_aux (c :: cur) r
  end.

Definition splitlines (s : pystr) : list pystr := splitlines_aux [] s.

(** [sep.join(l)] *)
Fixpoint join (sep : pystr) (l : list pystr) : pystr :=
  match l with
  | [] => []
  | [x] => x
  | x :: r => x ++ sep ++ join sep r
  end.

(** The slice [l[1:-1]]. *)
Definition slice_1_m1 {A} (l : list A) : list A := firstn (length l - 2) (tl l).

(** [a == b] on [str]. *)
Definition str_eqb (a b : pystr) : bool :=
  if list_eq_dec N.eq_dec a b then true else false.

Definition newline : pystr := [10%N].
Definition fence : pystr := ustr "```".

End PyStr.

Import PyStr.

(** ** The fence normalisers of the endpoints *)

(** [/evaluate] and [/swot] (app.py lines 216-219):
<<
content = resp.text
if content.strip().startswith("```"):
    lines = content.strip().splitlines()
    content = "\n".join(lines[1:-1])
>> *)
Definition strip_fences_first_last (content : pystr) : pystr :=
  if startswith fence (strip content)
  then join newline (slice_1_m1 (splitlines (strip content)))
  else content.

(** [/generate-qa] and [/generate-alternatives] (app.py lines 282-287 and
    329-334):
<<
content = resp.text.strip()
if content.startswith("```"):
    lines = content.splitlines()
    content = "\n".join(line for line in lines if not line.strip().startswith("```"))
>> *)
Definition strip_fence_lines (text : pystr) : pystr :=
  let content := strip text in
  if startswith fence content
  then join newline
         (filter (fun line => negb (startswith fence (strip line))) (splitlines content))
  else content.

(** ** Python exceptions and the exception monad *)

(** JSON values as [json.loads] returns them: [None], [bool], [int],
    [float], [str], [list] and [dict].  A [dict] is kept as its list of
    items in insertion order, with distinct keys. *)
Inductive json : Type :=
| JNull
| JBool (b : bool)
| JInt (z : Z)
| JFloat (f : float)
| JStr (s : pystr)
| JArr (l : list json)
| JObj (kvs : list (pystr * json)).

(** The exceptions the endpoints can meet.  Messages whose exact text comes
    from pydantic or from the model client are kept abstract: a
    [ValidationError] names the model that rejected its input, and any
    failure of [client.models.generate_content] is one [UpstreamError]. *)
Inductive exn : Type :=
| JSONDecodeError (msg : string) (doc : pystr) (pos : nat)
| TypeError (msg : pystr)
| AttributeError (msg : pystr)
| ValueError (msg : pystr)
| OverflowError (msg : pystr)
| ValidationError (model : string)
| HTTPException (status_code : Z) (detail : pystr)
| UpstreamError (msg : pystr).

Inductive result (A : Type) : Type :=
| Ok (a : A)
| Raise (e : exn).
Arguments Ok {A} a.
Arguments Raise {A} e.

Definition bind {A B} (m : result A) (k : A -> result B) : result B :=
  match m with
  | Ok a => k a
  | Raise e => Raise e
  end.

Notation "x <- m ;; k" := (bind m (fun x => k))
  (at level 61, m at next level, right associativity).

(** [[f(x) for x in l]]: the first exception stops the comprehension. *)
Fixpoint map_r {A B} (f : A -> result B) (l : list A) : result (list B) :=
  match l with
  | [] => Ok []
  | x :: r => y <- f x ;; ys <- map_r f r ;; Ok (y :: ys)
  end.

(** Decimal digits of a natural number, as [str(n)]. *)
Fixpoint digits_aux (fuel : nat) (n : N) (acc : pystr) : pystr :=
  match fuel with
  | O => acc
  | S f =>
      let acc' := (48 + N.modulo n 10)%N :: acc in
      if (n <? 10)%N then acc' else digits_aux f (N.div n 10) acc'
  end.

Definition str_N (n : N) : pystr := digits_aux (N.to_nat (N.size n) + 1) n [].

(** [str(z)] for a Python [int]. *)
Definition str_Z (z : Z) : pystr :=
  match z with
  | Zneg p => 45%N :: str_N (Npos p)
  | _ => str_N (Z.to_N z)
  end.

(** The number of code points after the last newline of [s], plus [k]
    when [s] has none. *)
Fixpoint chars_after_newline (s : pystr) (k : nat) : nat :=
  match s with
  | [] => k
  | c :: r => if N.eqb c 10 then chars_after_newline r 0
              else chars_after_newline r (S k)
  end.

(** [str(JSONDecodeError)]: ["%s: line %d column %d (char %d)"], the line
    and column being computed from [doc] and [pos] as [json.decoder] does
    ([lineno = doc.count("\n", 0, pos) + 1],
     [colno = pos - doc.rfind("\n", 0, pos)]). *)
Definition decode_error_text (msg : string) (doc : pystr) (pos : nat) : pystr :=
  let before := firstn pos doc in
  let lineno := S (List.length (filter (fun c => N.eqb c 10) before)) in
  let colno := S (chars_after_newline before 0) in
  ustr msg ++ ustr ": line " ++ str_N (N.of_nat lineno) ++ ustr " column "
  ++ str_N (N.of_nat colno) ++ ustr " (char " ++ str_N (N.of_nat pos) ++ ustr ")".

(** [str(e)] *)
Definition str_exn (e : exn) : pystr :=
  match e with
  | JSONDecodeError msg doc pos => decode_error_text msg doc pos
  | TypeError m | AttributeError m | ValueError m | OverflowError m
  | UpstreamError m => m
  | ValidationError model => ustr "validation error for " ++ ustr model
  | HTTPException code detail => str_Z code ++ ustr ": " ++ detail
  end.

(** The Python type name of a JSON value, for error messages. *)
Definition type_name (v : json) : pystr :=
  ustr match v with
  | JNull => "NoneType" | JBool _ => "bool" | JInt _ => "int"
  | JFloat _ => "float" | JStr _ => "str" | JArr _ => "list"
  | JObj _ => "dict"
  end.

(** ** Python [float()] *)

Module PyFloat.

(** The binary64 value nearest to [n / d] (ties to even), negated when
    [neg]; [n >= 0], [d > 0].  The quotient is taken with at least 60 bits
    and a sticky bit, so the one rounding of [binary_normalize] is exact. *)
Definition round_ratio (neg : bool) (n d : Z) : float :=
  if Z.eqb n 0 then (if neg then neg_zero else zero)
  else
    let s := (Z.log2_up d + 60)%Z in
    let num := (n * 2 ^ s)%Z in
    let m := (2 * (num / d) + (if Z.eqb (num mod d) 0 then 0 else 1))%Z in
    SF2Prim (SpecFloat.binary_normalize prec emax
               (if neg then Z.opp m else m) (Z.opp s - 1)%Z neg).

(** The value of the decimal [m * 10^e] ([m >= 0]) as a Python [float]:
    correctly rounded, overflowing to an infinity, as [float("...")]. *)
Definition decimal_to_float (neg : bool) (m e : Z) : float :=
  if Z.leb 0 e then round_ratio neg (m * 10 ^ e)%Z 1
  else round_ratio neg m (10 ^ (Z.opp e))%Z.

(** [float(n)] for a Python [int]: correctly rounded, [OverflowError] when
    the result is not finite. *)
Definition int_to_float (z : Z) : result float :=
  let f := SF2Prim (SpecFloat.binary_normalize prec emax z 0 false) in
  if PrimFloat.is_infinity f
  then Raise (OverflowError (ustr "int too large to convert to float"))
  else Ok f.

Definition is_digit (c : N) : bool := ((48 <=? c) && (c <=? 57))%N.

(** The ASCII digits at the front of [s], with their value. *)
Fixpoint take_digits (s : pystr) (acc : Z) (k : nat) : Z * nat * pystr :=
  match s with
  | c :: r => if is_digit c then take_digits r (acc * 10 + Z.of_N (c - 48))%Z (S k)
              else (acc, k, s)
  | [] => (acc, k, s)
  end.

(** ASCII lower case. *)
Definition lower (c : N) : N := if ((65 <=? c) && (c <=? 90))%N then (c + 32)%N else c.

(** The underscores rule of [_Py_string_to_number_with_underscores]: an
    underscore stands between two digits; the underscores are dropped. *)
Fixpoint drop_underscores (prev : N) (s : pystr) : option pystr :=
  match s with
  | [] => if N.eqb prev 95 then None else Some []
  | c :: r =>
      if N.eqb c 95 then
        if is_digit prev then drop_underscores c r else None
      else if N.eqb prev 95 && negb (is_digit c) then None
      else option_map (cons c) (drop_underscores c r)
  end.

(** [_Py_dg_strtod] as [PyOS_string_to_double] uses it: a sign, then
    [inf], [infinity] or [nan] in any case, or a decimal number
    [digits [. digits] [e [sign] digits]] with at least one digit in the
    mantissa; the whole text must be read. *)
Definition parse_float_text (s : pystr) : option float :=
  let '(neg, body) :=
    match s with
    | c :: r => if N.eqb c 45 then (true, r) else if N.eqb c 43 then (false, r)
                else (false, s)
    | [] => (false, s)
    end in
  let low := map lower body in
  if str_eqb low (ustr "inf") || str_eqb low (ustr "infinity")
  then Some (if neg then neg_infinity else infinity)
  else if str_eqb low (ustr "nan") then Some nan
  else
    let '(ip, ki, r1) := take_digits body 0 0 in
    let '(fp, kf, r2) :=
      match r1 with
      | c :: r => if N.eqb c 46 then take_digits r ip 0 else (ip, O, r1)
      | [] => (ip, O, r1)
      end in
    if Nat.eqb (ki + kf) 0 then None
    else
      let exp :=
        match r2 with
        | c :: r =>
            if N.eqb (lower c) 101 then
              let '(eneg, er) :=
                match r with
                | d :: r' => if N.eqb d 45 then (true, r') else if N.eqb d 43 then (false, r')
                             else (false, r)
                | [] => (false, r)
                end in
              let '(ev, ke, r3) := take_digits er 0 0 in
              if Nat.eqb ke 0 then None
              else Some ((if eneg then Z.opp ev else ev), r3)
            else Some (0%Z, r2)
        | [] => Some (0%Z, r2)
        end in
      match exp with
      | Some (e, []) => Some (decimal_to_float neg fp (e - Z.of_nat kf)%Z)
      | _ => None
      end.

(** The code points from U+0080 on that are the digit zero of a run of ten
    Unicode decimal digits (category Nd), from the Unicode 14.0.0 tables of
    CPython 3.11. *)
Definition decimal_zeros : list N :=
  [1632; 1776; 1984; 2406; 2534; 2662; 2790; 2918; 3046; 3174; 3302; 3430;
   3558; 3664; 3792; 3872; 4160; 4240; 6112; 6160; 6470; 6608; 6784; 6800;
   6992; 7088; 7232; 7248; 42528; 43216; 43264; 43472; 43504; 43600; 44016;
   65296; 66720; 68912; 69734; 69872; 69942; 70096; 70384; 70736; 70864;
   71248; 71360; 71472; 71904; 72016; 72784; 73040; 73120; 92768; 92864;
   93008; 120782; 120792; 120802; 120812; 120822; 123200; 123632; 125264;
   130032]%N.

(** The ranges of code points from U+0080 on that [str.isprintable]
    rejects (categories Cc, Cf, Cs, Co, Cn, Zl, Zp and Zs), from the same
    tables. *)
Definition nonprintable_ranges : list (N * N) :=
  [(128, 160); (173, 173); (888, 889); (896, 899); (907, 907); (909, 909);
   (930, 930); (1328, 1328); (1367, 1368); (1419, 1420); (1424, 1424);
   (1480, 1487); (1515, 1518); (1525, 1541); (1564, 1564); (1757, 1757);
   (1806, 1807); (1867, 1868); (1970, 1983); (2043, 2044); (2094, 2095);
   (2111, 2111); (2140, 2141); (2143, 2143); (2155, 2159); (2191, 2199);
   (2274, 2274); (2436, 2436); (2445, 2446); (2449, 2450); (2473, 2473);
   (2481, 2481); (2483, 2485); (2490, 2491); (2501, 2502); (2505, 2506);
   (2511, 2518); (2520, 2523); (2526, 2526); (2532, 2533); (2559, 2560);
   (2564, 2564); (2571, 2574); (2577, 2578); (2601, 2601); (2609, 2609);
   (2612, 2612); (2615, 2615); (2618, 2619); (2621, 2621); (2627, 2630);
   (2633, 2634); (2638, 2640); (2642, 2648); (2653, 2653); (2655, 2661);
   (2679, 2688); (2692, 2692); (2702, 2702); (2706, 2706); (2729, 2729);
   (2737, 2737); (2740, 2740); (2746, 2747); (2758, 2758); (2762, 2762);
   (2766, 2767); (2769, 2783); (2788, 2789); (2802, 2808); (2816, 2816);
   (2820, 2820); (2829, 2830); (2833, 2834); (2857, 2857); (2865, 2865);
   (2868, 2868); (2874, 2875); (2885, 2886); (2889, 2890); (2894, 2900);
   (2904, 2907); (2910, 2910); (2916, 2917); (2936, 2945); (2948, 2948);
   (2955, 2957); (2961, 2961); (2966, 2968); (2971, 2971); (2973, 2973);
   (2976, 2978); (2981, 2983); (2987, 2989); (3002, 3005); (3011, 3013);
   (3017, 3017); (3022, 3023); (3025, 3030); (3032, 3045); (3067, 3071);
   (3085, 3085); (3089, 3089); (3113, 3113); (3130, 3131); (3141, 3141);
   (3145, 3145); (3150, 3156); (3159, 3159); (3163, 3164); (3166, 3167);
   (3172, 3173); (3184, 3190); (3213, 3213); (3217, 3217); (3241, 3241);
   (3252, 3252); (3258, 3259); (3269, 3269); (3273, 3273); (3278, 3284);
   (3287, 3292); (3295, 3295); (3300, 3301); (3312, 3312); (3315, 3327);
   (3341, 3341); (3345, 3345); (3397, 3397); (3401, 3401); (3408, 3411);
   (3428, 3429); (3456, 3456); (3460, 3460); (3479, 3481); (3506, 3506);
   (3516, 3516); (3518, 3519); (3527, 3529); (3531, 3534); (3541, 3541);
   (3543, 3543); (3552, 3557); (3568, 3569); (3573, 3584); (3643, 3646);
   (3676, 3712); (3715, 3715); (3717, 3717); (3723, 3723); (3748, 3748);
   (3750, 3750); (3774, 3775); (3781, 3781); (3783, 3783); (3790, 3791);
   (3802, 3803); (3808, 3839); (3912, 3912); (3949, 3952); (3992, 3992);
   (4029, 4029); (4045, 4045); (4059, 4095); (4294, 4294); (4296, 4300);
   (4302, 4303); (4681, 4681); (4686, 4687); (4695, 4695); (4697, 4697);
   (4702, 4703); (4745, 4745); (4750, 4751); (4785, 4785); (4790, 4791);
   (4799, 4799); (4801, 4801); (4806, 4807); (4823, 4823); (4881, 4881);
   (4886, 4887); (4955, 4956); (4989, 4991); (5018, 5023); (5110, 5111);
   (5118, 5119); (5760, 5760); (5789, 5791); (5881, 5887); (5910, 5918);
   (5943, 5951); (5972, 5983); (5997, 5997); (6001, 6001); (6004, 6015);
   (6110, 6111); (6122, 6127); (6138, 6143); (6158, 6158); (6170, 6175);
   (6265, 6271); (6315, 6319); (6390, 6399); (6431, 6431); (6444, 6447);
   (6460, 6463); (6465, 6467); (6510, 6511); (6517, 6527); (6572, 6575);
   (6602, 6607); (6619, 6621); (6684, 6685); (6751, 6751); (6781, 6782);
   (6794, 6799); (6810, 6815); (6830, 6831); (6863, 6911); (6989, 6991);
   (7039, 7039); (7156, 7163); (7224, 7226); (7242, 7244); (7305, 7311);
   (7355, 7356); (7368, 7375); (7419, 7423); (7958, 7959); (7966, 7967);
   (8006, 8007); (8014, 8015); (8024, 8024); (8026, 8026); (8028, 8028);
   (8030, 8030); (8062, 8063); (8117, 8117); (8133, 8133); (8148, 8149);
   (8156, 8156); (8176, 8177); (8181, 8181); (8191, 8207); (8232, 8239);
   (8287, 8303); (8306, 8307); (8335, 8335); (8349, 8351); (8385, 8399);
   (8433, 8447); (8588, 8591); (9255, 9279); (9291, 9311); (11124, 11125);
   (11158, 11158); (11508, 11512); (11558, 11558); (11560, 11564);
   (11566, 11567); (11624, 11630); (11633, 11646); (11671, 11679);
   (11687, 11687); (11695, 11695); (11703, 11703); (11711, 11711);
   (11719, 11719); (11727, 11727); (11735, 11735); (11743, 11743);
   (11870, 11903); (11930, 11930); (12020, 12031); (12246, 12271);
   (12284, 12288); (12352, 12352); (12439, 12440); (12544, 12548);
   (12592, 12592); (12687, 12687); (12772, 12783); (12831, 12831);
   (42125, 42127); (42183, 42191); (42540, 42559); (42744, 42751);
   (42955, 42959); (42962, 42962); (42964, 42964); (42970, 42993);
   (43053, 43055); (43066, 43071); (43128, 43135); (43206, 43213);
   (43226, 43231); (43348, 43358); (43389, 43391); (43470, 43470);
   (43482, 43485); (43519, 43519); (43575, 43583); (43598, 43599);
   (43610, 43611); (43715, 43738); (43767, 43776); (43783, 43784);
   (43791, 43792); (43799, 43807); (43815, 43815); (43823, 43823);
   (43884, 43887); (44014, 44015); (44026, 44031); (55204, 55215);
   (55239, 55242); (55292, 63743); (64110, 64111); (64218, 64255);
   (64263, 64274); (64280, 64284); (64311, 64311); (64317, 64317);
   (64319, 64319); (64322, 64322); (64325, 64325); (64451, 64466);
   (64912, 64913); (64968, 64974); (64976, 65007); (65050, 65055);
   (65107, 65107); (65127, 65127); (65132, 65135); (65141, 65141);
   (65277, 65280); (65471, 65473); (65480, 65481); (65488, 65489);
   (65496, 65497); (65501, 65503); (65511, 65511); (65519, 65531);
   (65534, 65535); (65548, 65548); (65575, 65575); (65595, 65595);
   (65598, 65598); (65614, 65615); (65630, 65663); (65787, 65791);
   (65795, 65798); (65844, 65846); (65935, 65935); (65949, 65951);
   (65953, 65999); (66046, 66175); (66205, 66207); (66257, 66271);
   (66300, 66303); (66340, 66348); (66379, 66383); (66427, 66431);
   (66462, 66462); (66500, 66503); (66518, 66559); (66718, 66719);
   (66730, 66735); (66772, 66775); (66812, 66815); (66856, 66863);
   (66916, 66926); (66939, 66939); (66955, 66955); (66963, 66963);
   (66966, 66966); (66978, 66978); (66994, 66994); (67002, 67002);
   (67005, 67071); (67383, 67391); (67414, 67423); (67432, 67455);
   (67462, 67462); (67505, 67505); (67515, 67583); (67590, 67591);
   (67593, 67593); (67638, 67638); (67641, 67643); (67645, 67646);
   (67670, 67670); (67743, 67750); (67760, 67807); (67827, 67827);
   (67830, 67834); (67868, 67870); (67898, 67902); (67904, 67967);
   (68024, 68027); (68048, 68049); (68100, 68100); (68103, 68107);
   (68116, 68116); (68120, 68120); (68150, 68151); (68155, 68158);
   (68169, 68175); (68185, 68191); (68256, 68287); (68327, 68330);
   (68343, 68351); (68406, 68408); (68438, 68439); (68467, 68471);
   (68498, 68504); (68509, 68520); (68528, 68607); (68681, 68735);
   (68787, 68799); (68851, 68857); (68904, 68911); (68922, 69215);
   (69247, 69247); (69290, 69290); (69294, 69295); (69298, 69375);
   (69416, 69423); (69466, 69487); (69514, 69551); (69580, 69599);
   (69623, 69631); (69710, 69713); (69750, 69758); (69821, 69821);
   (69827, 69839); (69865, 69871); (69882, 69887); (69941, 69941);
   (69960, 69967); (70007, 70015); (70112, 70112); (70133, 70143);
   (70162, 70162); (70207, 70271); (70279, 70279); (70281, 70281);
   (70286, 70286); (70302, 70302); (70314, 70319); (70379, 70383);
   (70394, 70399); (70404, 70404); (70413, 70414); (70417, 70418);
   (70441, 70441); (70449, 70449); (70452, 70452); (70458, 70458);
   (70469, 70470); (70473, 70474); (70478, 70479); (70481, 70486);
   (70488, 70492); (70500, 70501); (70509, 70511); (70517, 70655);
   (70748, 70748); (70754, 70783); (70856, 70863); (70874, 71039);
   (71094, 71095); (71134, 71167); (71237, 71247); (71258, 71263);
   (71277, 71295); (71354, 71359); (71370, 71423); (71451, 71452);
   (71468, 71471); (71495, 71679); (71740, 71839); (71923, 71934);
   (71943, 71944); (71946, 71947); (71956, 71956); (71959, 71959);
   (71990, 71990); (71993, 71994); (72007, 72015); (72026, 72095);
   (72104, 72105); (72152, 72153); (72165, 72191); (72264, 72271);
   (72355, 72367); (72441, 72703); (72713, 72713); (72759, 72759);
   (72774, 72783); (72813, 72815); (72848, 72849); (72872, 72872);
   (72887, 72959); (72967, 72967); (72970, 72970); (73015, 73017);
   (73019, 73019); (73022, 73022); (73032, 73039); (73050, 73055);
   (73062, 73062); (73065, 73065); (73103, 73103); (73106, 73106);
   (73113, 73119); (73130, 73439); (73465, 73647); (73649, 73663);
   (73714, 73726); (74650, 74751); (74863, 74863); (74869, 74879);
   (75076, 77711); (77811, 77823); (78895, 82943); (83527, 92159);
   (92729, 92735); (92767, 92767); (92778, 92781); (92863, 92863);
   (92874, 92879); (92910, 92911); (92918, 92927); (92998, 93007);
   (93018, 93018); (93026, 93026); (93048, 93052); (93072, 93759);
   (93851, 93951); (94027, 94030); (94088, 94094); (94112, 94175);
   (94181, 94191); (94194, 94207); (100344, 100351); (101590, 101631);
   (101641, 110575); (110580, 110580); (110588, 110588); (110591, 110591);
   (110883, 110927); (110931, 110947); (110952, 110959); (111356, 113663);
   (113771, 113775); (113789, 113791); (113801, 113807); (113818, 113819);
   (113824, 118527); (118574, 118575); (118599, 118607); (118724, 118783);
   (119030, 119039); (119079, 119080); (119155, 119162); (119275, 119295);
   (119366, 119519); (119540, 119551); (119639, 119647); (119673, 119807);
   (119893, 119893); (119965, 119965); (119968, 119969); (119971, 119972);
   (119975, 119976); (119981, 119981); (119994, 119994); (119996, 119996);
   (120004, 120004); (120070, 120070); (120075, 120076); (120085, 120085);
   (120093, 120093); (120122, 120122); (120127, 120127); (120133, 120133);
   (120135, 120137); (120145, 120145); (120486, 120487); (120780, 120781);
   (121484, 121498); (121504, 121504); (121520, 122623); (122655, 122879);
   (122887, 122887); (122905, 122906); (122914, 122914); (122917, 122917);
   (122923, 123135); (123181, 123183); (123198, 123199); (123210, 123213);
   (123216, 123535); (123567, 123583); (123642, 123646); (123648, 124895);
   (124903, 124903); (124908, 124908); (124911, 124911); (124927, 124927);
   (125125, 125126); (125143, 125183); (125260, 125263); (125274, 125277);
   (125280, 126064); (126133, 126208); (126270, 126463); (126468, 126468);
   (126496, 126496); (126499, 126499); (126501, 126502); (126504, 126504);
   (126515, 126515); (126520, 126520); (126522, 126522); (126524, 126529);
   (126531, 126534); (126536, 126536); (126538, 126538); (126540, 126540);
   (126544, 126544); (126547, 126547); (126549, 126550); (126552, 126552);
   (126554, 126554); (126556, 126556); (126558, 126558); (126560, 126560);
   (126563, 126563); (126565, 126566); (126571, 126571); (126579, 126579);
   (126584, 126584); (126589, 126589); (126591, 126591); (126602, 126602);
   (126620, 126624); (126628, 126628); (126634, 126634); (126652, 126703);
   (126706, 126975); (127020, 127023); (127124, 127135); (127151, 127152);
   (127168, 127168); (127184, 127184); (127222, 127231); (127406, 127461);
   (127491, 127503); (127548, 127551); (127561, 127567); (127570, 127583);
   (127590, 127743); (128728, 128732); (128749, 128751); (128765, 128767);
   (128884, 128895); (128985, 128991); (129004, 129007); (129009, 129023);
   (129036, 129039); (129096, 129103); (129114, 129119); (129160, 129167);
   (129198, 129199); (129202, 129279); (129620, 129631); (129646, 129647);
   (129653, 129655); (129661, 129663); (129671, 129679); (129709, 129711);
   (129723, 129727); (129734, 129743); (129754, 129759); (129768, 129775);
   (129783, 129791); (129939, 129939); (129995, 130031); (130042, 131071);
   (173792, 173823); (177977, 177983); (178206, 178207); (183970, 183983);
   (191457, 194559); (195102, 196607); (201547, 917759); (918000, 1114111)]%N.

(** [Py_UNICODE_TODECIMAL] from U+0080 on. *)
Fixpoint decimal_in (zs : list N) (c : N) : option N :=
  match zs with
  | z :: r => if ((z <=? c) && (c <? z + 10))%N then Some (c - z)%N else decimal_in r c
  | [] => None
  end.

(** [_PyUnicode_TransformDecimalAndSpaceToASCII]: below U+007F a character
    is kept, a whitespace character becomes a space, a decimal digit its
    ASCII digit; at any other character the text is cut, ending in [?]. *)
Fixpoint to_ascii (s : pystr) : pystr :=
  match s with
  | [] => []
  | c :: r =>
      if (c <? 127)%N then c :: to_ascii r
      else if isspace c then 32%N :: to_ascii r
      else match decimal_in decimal_zeros c with
           | Some d => (48 + d)%N :: to_ascii r
           | None => [63%N]
           end
  end.

(** [Py_ISSPACE]: ASCII whitespace. *)
Definition ascii_isspace (c : N) : bool := (((9 <=? c) && (c <=? 13)) || N.eqb c 32)%N.

Fixpoint lstrip_ascii (s : pystr) : pystr :=
  match s with
  | c :: r => if ascii_isspace c then lstrip_ascii r else s
  | [] => []
  end.

Definition strip_ascii (s : pystr) : pystr := rev (lstrip_ascii (rev (lstrip_ascii s))).

Definition hex_digit (d : N) : N := if (d <? 10)%N then (48 + d)%N else (87 + d)%N.

(** The last [k] hexadecimal digits of [c], in lower case. *)
Fixpoint hex (k : nat) (c : N) : pystr :=
  match k with
  | O => []
  | S k' => hex k' (c / 16)%N ++ [hex_digit (c mod 16)%N]
  end.

Definition printable (c : N) : bool :=
  negb (existsb (fun '(lo, hi) => ((lo <=? c) && (c <=? hi))%N) nonprintable_ranges).

(** [repr] of a [str] (unicode_repr of Objects/unicodeobject.c). *)
Definition repr (s : pystr) : pystr :=
  let quote := if existsb (N.eqb 39) s && negb (existsb (N.eqb 34) s) then 34%N else 39%N in
  let esc (c : N) : pystr :=
    if N.eqb c quote || N.eqb c 92 then [92%N; c]
    else if N.eqb c 9 then ustr "\t"
    else if N.eqb c 10 then ustr "\n"
    else if N.eqb c 13 then ustr "\r"
    else if (c <? 32)%N || N.eqb c 127 then ustr "\x" ++ hex 2 c
    else if (c <? 127)%N || printable c then [c]
    else if (c <=? 255)%N then ustr "\x" ++ hex 2 c
    else if (c <=? 65535)%N then ustr "\u" ++ hex 4 c
    else ustr "\U" ++ hex 8 c in
  [quote] ++ flat_map esc s ++ [quote].

(** [float(s)] for a Python [str] (PyFloat_FromString of
    Objects/floatobject.c): the text is first made ASCII by [to_ascii];
    underscores between digits are dropped; ASCII whitespace around it is
    stripped; the rest must be a number.  The message quotes [repr(s)]. *)
Definition float_of_str (s : pystr) : result float :=
  let err := Raise (ValueError (ustr "could not convert string to float: " ++ repr s)) in
  match drop_underscores 0 (to_ascii s) with
  | None => err
  | Some t => match parse_float_text (strip_ascii t) with Some f => Ok f | None => err end
  end.

End PyFloat.

(** [float(x)] on a value read from JSON. *)
Definition py_float (v : json) : result float :=
  match v with
  | JInt z => PyFloat.int_to_float z
  | JFloat f => Ok f
  | JBool b => Ok (if b then one else zero)
  | JStr s => PyFloat.float_of_str s
  | _ => Raise (TypeError (ustr "float() argument must be a string or a real number, not '"
                           ++ type_name v ++ ustr "'"))
  end.
(** ** [json.loads]

    The C scanner of CPython ([scan_once_unicode], [scanstring_unicode],
    [_parse_object_unicode], [_parse_array_unicode], [_match_number_unicode]
    of Modules/_json.c) and [json.decoder.JSONDecoder.decode].  A failure
    position is kept as the number of code points left from it.  Python's
    recursion limit on nesting depth is not modelled. *)

Module JsonDecode.

Inductive perr : Type :=
| PDecode (msg : string) (rest_len : nat)
| PIntDigits (digits : nat).

Definition fail {A} (msg : string) (rest : pystr) : perr + A :=
  inl (PDecode msg (List.length rest)).

Definition is_ws (c : N) : bool :=
  N.eqb c 32 || N.eqb c 9 || N.eqb c 10 || N.eqb c 13.

Fixpoint skip_ws (s : pystr) : pystr :=
  match s with
  | c :: r => if is_ws c then skip_ws r else s
  | [] => []
  end.

(** [d[k] = v] on a [dict]: a present key keeps its place. *)
Fixpoint dict_set (kvs : list (pystr * json)) (k : pystr) (v : json)
  : list (pystr * json) :=
  match kvs with
  | [] => [(k, v)]
  | (k', v') :: r => if str_eqb k k' then (k, v) :: r else (k', v') :: dict_set r k v
  end.

Definition hex_value (c : N) : option N :=
  if ((48 <=? c) && (c <=? 57))%N then Some (c - 48)%N
  else if ((97 <=? c) && (c <=? 102))%N then Some (c - 87)%N
  else if ((65 <=? c) && (c <=? 70))%N then Some (c - 55)%N
  else None.

Definition hex4 (s : pystr) : option (N * pystr) :=
  match s with
  | a :: b :: c :: d :: r =>
      match hex_value a, hex_value b, hex_value c, hex_value d with
      | Some x, Some y, Some z, Some w => Some (((x * 16 + y) * 16 + z) * 16 + w, r)%N
      | _, _, _, _ => None
      end
  | _ => None
  end.

Definition is_high_surrogate (c : N) : bool := ((55296 <=? c) && (c <=? 56319))%N.
Definition is_low_surrogate (c : N) : bool := ((56320 <=? c) && (c <=? 57343))%N.

(** The one-character escapes. *)
Definition simple_escape (e : N) : option N :=
  if N.eqb e 34 then Some 34%N else if N.eqb e 92 then Some 92%N
  else if N.eqb e 47 then Some 47%N else if N.eqb e 98 then Some 8%N
  else if N.eqb e 102 then Some 12%N else if N.eqb e 110 then Some 10%N
  else if N.eqb e 114 then Some 13%N else if N.eqb e 116 then Some 9%N
  else None.

(** [scanstring_unicode] in strict mode: [s] is the text after the opening
    quote [q], [acc] the decoded code points so far, reversed. *)
Fixpoint scanstring (fuel : nat) (q : pystr) (s : pystr) (acc : pystr)
  : perr + (pystr * pystr) :=
  match fuel with
  | O => fail "Unterminated string starting at" q
  | S fuel' =>
  match s with
  | [] => fail "Unterminated string starting at" q
  | c :: r =>
      if N.eqb c 34 then inr (rev acc, r)
      else if N.eqb c 92 then
        match r with
        | [] => fail "Unterminated string starting at" q
        | e :: r' =>
            if N.eqb e 117 then
              if Nat.leb (List.length r') 4 then fail "Invalid \uXXXX escape" r
              else match hex4 r' with
                   | None => fail "Invalid \uXXXX escape" r
                   | Some (cp, r2) =>
                       match r2 with
                       | b :: u :: r3 =>
                           if is_high_surrogate cp && Nat.ltb 6 (List.length r2)
                              && N.eqb b 92 && N.eqb u 117 then
                             match hex4 r3 with
                             | None => fail "Invalid \uXXXX escape" (u :: r3)
                             | Some (cp2, r4) =>
                                 if is_low_surrogate cp2 then
                                   scanstring fuel' q r4
                                     ((65536 + (cp - 55296) * 1024 + (cp2 - 56320))%N :: acc)
                                 else scanstring fuel' q r2 (cp :: acc)
                             end
                           else scanstring fuel' q r2 (cp :: acc)
                       | _ => scanstring fuel' q r2 (cp :: acc)
                       end
                   end
            else match simple_escape e with
                 | Some x => scanstring fuel' q r' (x :: acc)
                 | None => fail "Invalid \escape" s
                 end
        end
      else if (c <=? 31)%N then fail "Invalid control character at" s
      else scanstring fuel' q r (c :: acc)
  end
  end.

(** [_match_number_unicode]: an optional minus, [0] or a non-zero digit
    followed by digits, an optional fraction [.digits], an optional exponent
    [e] or [E] with an optional sign and digits; an [int] unless a fraction or an exponent is present.  Since Python
    3.11 [int()] refuses more than 4300 digits. *)
Definition match_number (s : pystr) : perr + (json * pystr) :=
  let '(neg, s1) :=
    match s with c :: r => if N.eqb c 45 then (true, r) else (false, s) | [] => (false, s) end in
  let int_part :=
    match s1 with
    | c :: r =>
        if ((49 <=? c) && (c <=? 57))%N then Some (PyFloat.take_digits s1 0 0)
        else if N.eqb c 48 then Some (0%Z, 1%nat, r)
        else None
    | [] => None
    end in
  match int_part with
  | None => fail "Expecting value" s
  | Some (iv, ki, r1) =>
      let '(m, kf, r2) :=
        match r1 with
        | c :: (d :: _) as r => if N.eqb c 46 && PyFloat.is_digit d
                                then PyFloat.take_digits r iv 0 else (iv, O, r1)
        | _ => (iv, O, r1)
        end in
      let '(e, has_exp, r3) :=
        match r2 with
        | c :: r =>
            if N.eqb (PyFloat.lower c) 101 then
              let '(eneg, er) :=
                match r with
                | d :: r' => if N.eqb d 45 then (true, r') else if N.eqb d 43 then (false, r')
                             else (false, r)
                | [] => (false, r)
                end in
              let '(ev, ke, r') := PyFloat.take_digits er 0 0 in
              if Nat.eqb ke 0 then (0%Z, false, r2)
              else ((if eneg then Z.opp ev else ev), true, r')
            else (0%Z, false, r2)
        | [] => (0%Z, false, r2)
        end in
      if has_exp || negb (Nat.eqb kf 0) then
        inr (JFloat (PyFloat.decimal_to_float neg m (e - Z.of_nat kf)%Z), r3)
      else if Nat.ltb 4300 ki then inl (PIntDigits ki)
      else inr (JInt (if neg then Z.opp iv else iv), r3)
  end.

Definition json_null : pystr := ustr "null".
Definition json_true : pystr := ustr "true".
Definition json_false : pystr := ustr "false".
Definition json_nan : pystr := ustr "NaN".
Definition json_inf : pystr := ustr "Infinity".
Definition json_neg_inf : pystr := ustr "-Infinity".

(** [scan_once_unicode] with the array and object loops.  Each call
    consumes one unit of [fuel]; [loads] gives twice the length of the
    document, more than any nesting of calls can use. *)
Fixpoint scan_once (fuel : nat) (s : pystr) {struct fuel} : perr + (json * pystr) :=
  match fuel with
  | O => fail "Expecting value" s
  | S fuel' =>
  match s with
  | [] => fail "Expecting value" s
  | c :: r =>
      if N.eqb c 34 then
        match scanstring (List.length r) s r [] with
        | inl e => inl e
        | inr (str, r') => inr (JStr str, r')
        end
      else if N.eqb c 123 then
        match skip_ws r with
        | d :: r' => if N.eqb d 125 then inr (JObj [], r')
                     else parse_object fuel' (skip_ws r) []
        | [] => parse_object fuel' [] []
        end
      else if N.eqb c 91 then
        match skip_ws r with
        | d :: r' => if N.eqb d 93 then inr (JArr [], r')
                     else parse_array fuel' (skip_ws r) []
        | [] => parse_array fuel' [] []
        end
      else if startswith json_null s then inr (JNull, skipn 4 s)
      else if startswith json_true s then inr (JBool true, skipn 4 s)
      else if startswith json_false s then inr (JBool false, skipn 5 s)
      else if startswith json_nan s then inr (JFloat nan, skipn 3 s)
      else if startswith json_inf s then inr (JFloat infinity, skipn 8 s)
      else if startswith json_neg_inf s then inr (JFloat neg_infinity, skipn 9 s)
      else match_number s
  end
  end

(** The loop of [_parse_array_unicode], at the start of an element. *)
with parse_array (fuel : nat) (s : pystr) (acc : list json) {struct fuel}
  : perr + (json * pystr) :=
  match fuel with
  | O => fail "Expecting value" s
  | S fuel' =>
      match scan_once fuel' s with
      | inl e => inl e
      | inr (v, r) =>
          let r1 := skip_ws r in
          match r1 with
          | c :: r2 =>
              if N.eqb c 93 then inr (JArr (rev (v :: acc)), r2)
              else if N.eqb c 44 then
                match skip_ws r2 with
                | d :: _ =>
                    if N.eqb d 93 then fail "Illegal trailing comma before end of array" r1
                    else parse_array fuel' (skip_ws r2) (v :: acc)
                | [] => parse_array fuel' [] (v :: acc)
                end
              else fail "Expecting ',' delimiter" r1
          | [] => fail "Expecting ',' delimiter" r1
          end
      end
  end

(** The loop of [_parse_object_unicode], at the start of a key. *)
with parse_object (fuel : nat) (s : pystr) (acc : list (pystr * json)) {struct fuel}
  : perr + (json * pystr) :=
  match fuel with
  | O => fail "Expecting value" s
  | S fuel' =>
  match s with
  | q :: r =>
      if N.eqb q 34 then
        match scanstring (List.length r) s r [] with
        | inl e => inl e
        | inr (key, r1) =>
            match skip_ws r1 with
            | c :: r2 =>
                if N.eqb c 58 then
                  match scan_once fuel' (skip_ws r2) with
                  | inl e => inl e
                  | inr (v, r3) =>
                      let r4 := skip_ws r3 in
                      let acc' := dict_set acc key v in
                      match r4 with
                      | d :: r5 =>
                          if N.eqb d 125 then inr (JObj acc', r5)
                          else if N.eqb d 44 then
                            match skip_ws r5 with
                            | e :: _ =>
                                if N.eqb e 125
                                then fail "Illegal trailing comma before end of object" r4
                                else parse_object fuel' (skip_ws r5) acc'
                            | [] => parse_object fuel' [] acc'
                            end
                          else fail "Expecting ',' delimiter" r4
                      | [] => fail "Expecting ',' delimiter" r4
                      end
                  end
                else fail "Expecting ':' delimiter" (skip_ws r1)
            | [] => fail "Expecting ':' delimiter" []
            end
        end
      else fail "Expecting property name enclosed in double quotes" s
  | [] => fail "Expecting property name enclosed in double quotes" s
  end
  end.

End JsonDecode.

(** [json.loads(doc)] for a [str] document. *)
Definition loads (doc : pystr) : result json :=
  let n := List.length doc in
  let decode_error (msg : string) (rest_len : nat) : result json :=
    Raise (JSONDecodeError msg doc (n - rest_len)) in
  let to_exn (e : JsonDecode.perr) :=
    match e with
    | JsonDecode.PDecode msg k => decode_error msg k
    | JsonDecode.PIntDigits d =>
        Raise (ValueError (ustr "Exceeds the limit (4300 digits) for integer string conversion: value has "
                           ++ str_N (N.of_nat d) ++ ustr " digits; use sys.set_int_max_str_digits() to increase the limit"))
    end in
  match doc with
  | c :: _ =>
      if N.eqb c 65279 then decode_error "Unexpected UTF-8 BOM (decode using utf-8-sig)"%string n
      else
        match JsonDecode.scan_once (2 * n + 2) (JsonDecode.skip_ws doc) with
        | inl e => to_exn e
        | inr (v, rest) =>
            match JsonDecode.skip_ws rest with
            | [] => Ok v
            | r => decode_error "Extra data"%string (List.length r)
            end
        end
  | [] => decode_error "Expecting value"%string 0
  end.

(** ** Python operations on parsed values *)

Fixpoint lookup (k : pystr) (kvs : list (pystr * json)) : option json :=
  match kvs with
  | [] => None
  | (k', v) :: r => if str_eqb k k' then Some v else lookup k r
  end.

(** [d.get(k, default)]: an [AttributeError] unless [d] is a [dict]. *)
Definition py_get (d : json) (k : pystr) (default : json) : result json :=
  match d with
  | JObj kvs => Ok (match lookup k kvs with Some v => v | None => default end)
  | _ => Raise (AttributeError (ustr "'" ++ type_name d ++ ustr "' object has no attribute 'get'"))
  end.

(** [iter(v)]: a [list] yields its elements, a [dict] its keys, a [str] its
    characters; other values are not iterable. *)
Definition py_iter (v : json) : result (list json) :=
  match v with
  | JArr l => Ok l
  | JObj kvs => Ok (map (fun kv => JStr (fst kv)) kvs)
  | JStr s => Ok (map (fun c => JStr [c]) s)
  | _ => Raise (TypeError (ustr "'" ++ type_name v ++ ustr "' object is not iterable"))
  end.

(** [bool(v)] *)
Definition truthy (v : json) : bool :=
  match v with
  | JNull => false
  | JBool b => b
  | JInt z => negb (Z.eqb z 0)
  | JFloat f => negb (PrimFloat.eqb f zero)
  | JStr s => negb (Nat.eqb (List.length s) 0)
  | JArr l => negb (Nat.eqb (List.length l) 0)
  | JObj kvs => negb (Nat.eqb (List.length kvs) 0)
  end.

(** ** Pydantic models (pydantic 2, lax mode) *)

(** A [str] field takes a [str] only. *)
Definition validate_str (model : string) (v : json) : result pystr :=
  match v with
  | JStr s => Ok s
  | _ => Raise (ValidationError model)
  end.

(** The integer value of a finite integral [float]. *)
Definition float_integral (f : float) : option Z :=
  match Prim2SF f with
  | S754_zero _ => Some 0%Z
  | S754_finite sgn m e =>
      let v := if Z.leb 0 e then Some (Zpos m * 2 ^ e)%Z
               else if Z.eqb (Zpos m mod 2 ^ (Z.opp e)) 0 then Some (Zpos m / 2 ^ (Z.opp e))%Z
               else None in
      option_map (fun x => if sgn then Z.opp x else x) v
  | _ => None
  end.

(** [char::is_whitespace] of Rust: the Unicode White_Space property. *)
Definition rust_is_whitespace (c : N) : bool :=
  (((9 <=? c) && (c <=? 13)) || N.eqb c 32 || N.eqb c 133 || N.eqb c 160 || N.eqb c 5760
  || ((8192 <=? c) && (c <=? 8202)) || N.eqb c 8232 || N.eqb c 8233 || N.eqb c 8239
  || N.eqb c 8287 || N.eqb c 12288)%N.

Fixpoint trim_start (s : pystr) : pystr :=
  match s with
  | c :: r => if rust_is_whitespace c then trim_start r else s
  | [] => []
  end.

(** [str::trim] of Rust. *)
Definition trim (s : pystr) : pystr := rev (trim_start (rev (trim_start s))).

(** [str::len] of Rust: the length of the UTF-8 encoding in bytes. *)
Definition utf8_len (s : pystr) : nat :=
  fold_right (fun c n => ((if (c <? 128)%N then 1 else if (c <? 2048)%N then 2
                           else if (c <? 65536)%N then 3 else 4) + n)%nat) 0%nat s.

(** The value of a non-empty run of ASCII digits. *)
Definition digits_value (s : pystr) : option Z :=
  match PyFloat.take_digits s 0 0 with
  | (z, S _, []) => Some z
  | _ => None
  end.

(** [str::parse::<i64>] of Rust: one optional sign, then digits, in range. *)
Definition parse_i64 (s : pystr) : option Z :=
  let '(neg, body) :=
    match s with
    | c :: r => if N.eqb c 45 then (true, r) else if N.eqb c 43 then (false, r) else (false, s)
    | [] => (false, s)
    end in
  match digits_value body with
  | Some z =>
      let v := if neg then Z.opp z else z in
      if Z.leb (- 2 ^ 63) v && Z.ltb v (2 ^ 63) then Some v else None
  | None => None
  end.

(** [str::parse::<BigInt>] of num-bigint: a [-] not followed by [+], then
    a [+] not followed by [+], then a digit and digits or underscores (the
    underscores are skipped). *)
Definition parse_bigint (s : pystr) : option Z :=
  let '(neg, s1) :=
    match s with
    | c :: r => if N.eqb c 45 && negb (startswith [43%N] r) then (true, r) else (false, s)
    | [] => (false, s)
    end in
  let s2 :=
    match s1 with
    | c :: r => if N.eqb c 43 && negb (startswith [43%N] r) then r else s1
    | [] => s1
    end in
  match s2 with
  | [] => None
  | c :: _ =>
      if N.eqb c 95 then None
      else option_map (fun z => if neg then Z.opp z else z)
                      (digits_value (filter (fun d => negb (N.eqb d 95)) s2))
  end.

(** [strip_decimal_zeros] of pydantic-core: the text before the first [.],
    when only zeros follow it. *)
Fixpoint strip_decimal_zeros (s : pystr) : option pystr :=
  match s with
  | [] => None
  | c :: r => if N.eqb c 46 then (if forallb (fun d => N.eqb d 48) r then Some [] else None)
              else option_map (cons c) (strip_decimal_zeros r)
  end.

(** [_parse_str] of pydantic-core: [i64] below 19 bytes, [BigInt] from 19. *)
Definition parse_str (t : pystr) (len : nat) : option Z :=
  if Nat.ltb len 19 then parse_i64 t else parse_bigint t.

(** [str_as_int] of pydantic-core: trimmed, at most 4300 bytes, parsed
    as it is or, failing that, without a [.] followed only by zeros (the
    length tested stays the one of the trimmed text). *)
Definition str_as_int (s : pystr) : option Z :=
  let t := trim s in
  let len := utf8_len t in
  if (4300 <? N.of_nat len)%N then None
  else match parse_str t len with
       | Some z => Some z
       | None => match strip_decimal_zeros t with
                 | Some u => parse_str u len
                 | None => None
                 end
       end.

(** [float_as_int] of pydantic-core: a finite integral [float] strictly
    between [i64::MIN as f64] and [i64::MAX as f64], that is [-2^63] and [2^63]. *)
Definition float_as_int (f : float) : option Z :=
  match float_integral f with
  | Some z => if Z.ltb (- 2 ^ 63) z && Z.ltb z (2 ^ 63) then Some z else None
  | None => None
  end.

(** An [int] field takes an [int], a [bool] (as 0 or 1), a [float] through
    [float_as_int] or a [str] through [str_as_int]. *)
Definition validate_int (model : string) (v : json) : result Z :=
  let err := Raise (ValidationError model) in
  match v with
  | JInt z => Ok z
  | JBool b => Ok (if b then 1%Z else 0%Z)
  | JFloat f => match float_as_int f with Some z => Ok z | None => err end
  | JStr s => match str_as_int s with Some z => Ok z | None => err end
  | _ => err
  end.

Module QuestionItem.
Record t := {
  question_id : pystr;
  question : pystr;
  actual_answer : pystr;
  expected_answer : pystr }.
End QuestionItem.

Module Submission.
Record t := { items : list QuestionItem.t }.
End Submission.

Module ScoreDetail.
Record t := {
  question_id : pystr;
  question : pystr;
  score : float;
  correct : bool;
  feedback : pystr }.
End ScoreDetail.

Module ScoreResponse.
Record t := {
  total_score : float;
  details : list ScoreDetail.t }.
End ScoreResponse.

Module SWOTResponse.
Record t := {
  strengths : pystr;
  weaknesses : pystr;
  opportunities : pystr;
  threats : pystr }.
End SWOTResponse.

Module QuestionGenerationRequest.
Record t := {
  title : pystr;
  subject : pystr;
  class_ : pystr;
  start_date : pystr;
  end_date : pystr;
  question_type : pystr;
  number_of_questions : Z;
  difficulty : pystr;
  topics : pystr;
  instructions : pystr;
  description : pystr;
  max_score : Z;
  passing_score : Z }.
End QuestionGenerationRequest.

Module GeneratedQuestion.
Record t := {
  question : pystr;
  expected_answer : pystr }.
End GeneratedQuestion.

Module QuestionGenerationResponse.
Record t := { questions : list GeneratedQuestion.t }.
End QuestionGenerationResponse.

(** [Literal["SHORT_ANSWER", "MCQ", "LONG_ANSWER"]] *)
Inductive question_kind := SHORT_ANSWER | MCQ | LONG_ANSWER.

(** [Literal["Text"]] *)
Inductive answer_kind := Text.

Module AlternativeOption.
Record t := {
  id : pystr;
  text : pystr }.
End AlternativeOption.

Module AlternativeQuestion.
Record t := {
  id : pystr;
  type : question_kind;
  text : pystr;
  answer_type : answer_kind;
  expected_answer : pystr;
  marks : Z;
  options : option (list AlternativeOption.t) }.
End AlternativeQuestion.

Module AlternativeRequest.
Record t := {
  id : pystr;
  title : pystr;
  description : pystr;
  subtopic : pystr;
  difficulty : pystr;
  marks : Z;
  questionType : question_kind;
  subject : pystr }.
End AlternativeRequest.

(** ** Prompt builders (app.py lines 100-205)

    The fixed text of each template, in source order between the
    interpolated fields. *)

Module Prompts.

Definition dq : pystr := [34%N].

Definition qg_intro : pystr :=
  ustr "
You are a highly experienced school teacher tasked with creating a test.

Please generate ".

Definition qg_after_number : pystr :=
  ustr " **".

Definition qg_after_type : pystr :=
  ustr "** questions based on the topic **".

Definition qg_after_topics : pystr :=
  ustr "**, for the subject **".

Definition qg_after_subject : pystr :=
  ustr "**, targeted at **".

Definition qg_after_class : pystr :=
  ustr "** students. The difficulty should be **".

Definition qg_after_difficulty : pystr :=
  ustr "** level.

Make sure the questions:
- Are clear and age-appropriate.
- Do NOT repeat the same concept.
- Follow these instructions: ".

Definition qg_tail : pystr :=
  ustr "

For each question, provide an expected answer clearly. Return the output as a JSON array with fields:
- `question`: the full question text.
- `expected_answer`: the correct answer to that question. 

### Example format:
  {
  "
  ++ dq
  ++ ustr "questions"
  ++ dq
  ++ ustr ": [
    {
      "
  ++ dq
  ++ ustr "question"
  ++ dq
  ++ ustr ": "
  ++ dq
  ++ ustr "Your generated question here"
  ++ dq
  ++ ustr ",
      "
  ++ dq
  ++ ustr "expected_answer"
  ++ dq
  ++ ustr ": "
  ++ dq
  ++ ustr "The correct answer here"
  ++ dq
  ++ ustr "
    },
    ...
  ]
}
  ...

ONLY return a valid JSON array and nothing else. Now generate the questions:
    ".

Definition evaluation_instructions : pystr :=
  ustr "
        You are an expert teacher with deep knowledge in the subject matter. Evaluate the following student responses to a set of questions. For each response, provide a detailed assessment by:
        Assigning a score out of 0-10 based on accuracy, completeness, and clarity.
        Indicating whether the answer is correct (True) or incorrect (False).
        Providing customized, constructive feedback that highlights strengths, identifies errors or gaps, and offers specific guidance for improvement. Make sure it sounds very natural and personalised like an actual person would advise.
        Return the evaluation as a JSON array, where each object contains the fields: question (the question text or identifier), score (integer from 0 to 10), correct (boolean), and feedback (a string with detailed feedback). Ensure the feedback is clear, encouraging, and actionable.
        ".

Definition swot_instructions : pystr :=
  ustr "
You are an educational expert with extensive experience in student assessment and performance analysis.

Review the following set of student responses (along with the expected answers) and provide a single, overall SWOT analysis summarizing the student's overall performance "
  ++ [8212%N]
  ++ ustr " not per question.

Focus on:
- **Strengths**: What are the overall areas where this student shows strong understanding or skill across the test? Provide general patterns and examples.
- **Weaknesses**: What general mistakes, gaps, or weaknesses appear across the responses?
- **Opportunities**: What can this student do to improve overall? Suggest strategies, resources, or approaches they can take.
- **Threats**: Are there any risks or challenges (like misconceptions, bad habits, or external issues) that might limit their progress?

- Make sure that the analysis is very helpful, natural and very human like as if how a real person would advice and not robotic
- Also always use "
  ++ dq
  ++ ustr "you"
  ++ dq
  ++ ustr " instead of student should do this,etc. Make it sound personalised to that particular person

RETURN FORMAT:
Return the SWOT analysis as a single JSON object with these four keys:
- strengths (string)
- weaknesses (string)
- opportunities (string)
- threats (string)

Be detailed, constructive, and base your analysis on overall trends, not per-question breakdowns.

".

Definition alt_intro : pystr :=
  ustr "You are a exper , creative teacher. Generate *three* distinct ".

Definition alt_after_kind : pystr :=
  ustr " questions (with expected answers) on the subtopic **".

Definition alt_after_subtopic : pystr :=
  ustr "**, for a **".

Definition alt_after_difficulty : pystr :=
  ustr "**-level ".

Definition alt_after_subject : pystr :=
  ustr " test worth **".

Definition alt_after_marks : pystr :=
  ustr "** marks each.
Use the provided question ID **".

Definition alt_fields : pystr :=
  ustr "** for all three questions.
Include in your JSON output for each question:
 - `id`: the provided ID 
 - `type`: one of SHORT_ANSWER, MCQ, LONG_ANSWER
 - `text`: the question prompt (include marks and difficulty in brackets)
 - `answer_type`: "
  ++ dq
  ++ ustr "Text"
  ++ dq
  ++ ustr "
 - `expected_answer`: the correct answer
 - `marks`: how many marks
".

Definition alt_return : pystr :=
  ustr "
Return a JSON array of objects exactly matching this schema.".

Definition alt_mcq_fields : pystr :=
  ustr " - `options`: list of four `{id, text}` objects representing the choices.
 - `expected_answer`: the `id` of the correct option.
".

End Prompts.

Import Prompts.

(** [build_question_generation_prompt(payload)]: one f-string. *)
Definition build_question_generation_prompt (payload : QuestionGenerationRequest.t) : pystr :=
  qg_intro ++ str_Z (QuestionGenerationRequest.number_of_questions payload)
  ++ qg_after_number ++ QuestionGenerationRequest.question_type payload
  ++ qg_after_type ++ QuestionGenerationRequest.topics payload
  ++ qg_after_topics ++ QuestionGenerationRequest.subject payload
  ++ qg_after_subject ++ QuestionGenerationRequest.class_ payload
  ++ qg_after_class ++ QuestionGenerationRequest.difficulty payload
  ++ qg_after_difficulty ++ QuestionGenerationRequest.instructions payload
  ++ qg_tail.

(** The loop [for idx, item in enumerate(items, 1): prompt += ...]. *)
Fixpoint evaluation_prompt_loop (prompt : pystr) (idx : Z) (items : list QuestionItem.t) : pystr :=
  match items with
  | [] => prompt
  | item :: rest =>
      let prompt := prompt ++ str_Z idx ++ ustr ". Question: " ++ QuestionItem.question item ++ newline in
      let prompt := prompt ++ ustr "Student Answer: " ++ QuestionItem.actual_answer item ++ newline in
      let prompt := prompt ++ ustr "Expected Answer: " ++ QuestionItem.expected_answer item
                           ++ newline ++ newline in
      evaluation_prompt_loop prompt (idx + 1)%Z rest
  end.

Definition build_evaluation_prompt (items : list QuestionItem.t) : pystr :=
  evaluation_prompt_loop evaluation_instructions 1 items.

Definition build_swot_prompt (items : list QuestionItem.t) : pystr :=
  let context :=
    join newline
      (map (fun item =>
              ustr "Question: " ++ QuestionItem.question item
              ++ newline ++ ustr "Student Answer: " ++ QuestionItem.actual_answer item
              ++ newline ++ ustr "Expected Answer: " ++ QuestionItem.expected_answer item
              ++ newline) items) in
  swot_instructions ++ context.

(** [qtype_map] *)
Definition qtype_map (k : question_kind) : pystr :=
  match k with
  | SHORT_ANSWER => ustr "short answer"
  | MCQ => ustr "multiple choice (MCQ)"
  | LONG_ANSWER => ustr "long answer"
  end.

Definition build_alternatives_prompt (req : AlternativeRequest.t) : pystr :=
  let base :=
    alt_intro ++ qtype_map (AlternativeRequest.questionType req)
    ++ alt_after_kind ++ AlternativeRequest.subtopic req
    ++ alt_after_subtopic ++ AlternativeRequest.difficulty req
    ++ alt_after_difficulty ++ AlternativeRequest.subject req
    ++ alt_after_subject ++ str_Z (AlternativeRequest.marks req)
    ++ alt_after_marks ++ AlternativeRequest.id req
    ++ alt_fields in
  let base :=
    match AlternativeRequest.questionType req with
    | MCQ => base ++ alt_mcq_fields
    | _ => base
    end in
  base ++ alt_return.

(** [Literal["SHORT_ANSWER", "MCQ", "LONG_ANSWER"]] on its input. *)
Definition validate_question_kind (model : string) (v : json) : result question_kind :=
  match v with
  | JStr s =>
      if str_eqb s (ustr "SHORT_ANSWER") then Ok SHORT_ANSWER
      else if str_eqb s (ustr "MCQ") then Ok MCQ
      else if str_eqb s (ustr "LONG_ANSWER") then Ok LONG_ANSWER
      else Raise (ValidationError model)
  | _ => Raise (ValidationError model)
  end.

(** [Literal["Text"]] on its input. *)
Definition validate_answer_kind (model : string) (v : json) : result answer_kind :=
  match v with
  | JStr s => if str_eqb s (ustr "Text") then Ok Text else Raise (ValidationError model)
  | _ => Raise (ValidationError model)
  end.

(** A required field of a model built from the items of a [dict]. *)
Definition required {A} (model : string) (kvs : list (pystr * json)) (k : string)
  (check : string -> json -> result A) : result A :=
  match lookup (ustr k) kvs with
  | Some v => check model v
  | None => Raise (ValidationError model)
  end.

(** [AlternativeOption] validated from a [dict]; extra keys are ignored. *)
Definition alternative_option (v : json) : result AlternativeOption.t :=
  match v with
  | JObj kvs =>
      i <- required "AlternativeOption" kvs "id" validate_str ;;
      t <- required "AlternativeOption" kvs "text" validate_str ;;
      Ok {| AlternativeOption.id := i; AlternativeOption.text := t |}
  | _ => Raise (ValidationError "AlternativeOption")
  end.

(** [options: Optional[list[AlternativeOption]] = None] *)
Definition validate_options (v : option json) : result (option (list AlternativeOption.t)) :=
  match v with
  | None | Some JNull => Ok None
  | Some (JArr l) => opts <- map_r alternative_option l ;; Ok (Some opts)
  | Some _ => Raise (ValidationError "AlternativeQuestion")
  end.

(** [AlternativeQuestion] called with the keyword arguments [**q]. *)
Definition alternative_question (q : json) : result AlternativeQuestion.t :=
  match q with
  | JObj kvs =>
      let m := "AlternativeQuestion"%string in
      i <- required m kvs "id" validate_str ;;
      ty <- required m kvs "type" validate_question_kind ;;
      tx <- required m kvs "text" validate_str ;;
      atype <- required m kvs "answer_type" validate_answer_kind ;;
      ea <- required m kvs "expected_answer" validate_str ;;
      mk <- required m kvs "marks" validate_int ;;
      op <- validate_options (lookup (ustr "options") kvs) ;;
      Ok {| AlternativeQuestion.id := i; AlternativeQuestion.type := ty;
            AlternativeQuestion.text := tx; AlternativeQuestion.answer_type := atype;
            AlternativeQuestion.expected_answer := ea; AlternativeQuestion.marks := mk;
            AlternativeQuestion.options := op |}
  | _ => Raise (TypeError (ustr "app.AlternativeQuestion() argument after ** must be a mapping, not "
                           ++ type_name q))
  end.

(** ** The endpoints *)

(** The model client: [client.models.generate_content(model=m,
    contents=prompt)] followed by [.text], which is [None] when the answer
    has no text part; any failure of the call is a raised exception. *)
Definition client := pystr -> pystr -> result (option pystr).

Definition gemini_model : pystr := ustr "gemini-2.0-flash".

(** [.strip()] on [resp.text]. *)
Definition response_text (text : option pystr) : result pystr :=
  match text with
  | Some s => Ok s
  | None => Raise (AttributeError (ustr "'NoneType' object has no attribute 'strip'"))
  end.

(** An HTTP answer: the typed body, or [HTTPException(status_code, detail)]. *)
Inductive response (A : Type) : Type :=
| HOk (body : A)
| HError (status_code : Z) (detail : pystr).
Arguments HOk {A} body.
Arguments HError {A} status_code detail.

(** The body of the loop of [/evaluate] (app.py lines 227-238). *)
Definition score_detail (entry : json) (original_item : QuestionItem.t) : result ScoreDetail.t :=
  s <- py_get entry (ustr "score") (JInt 0) ;;
  score <- py_float s ;;
  c <- py_get entry (ustr "correct") (JBool false) ;;
  let correct := truthy c in
  feedback <- py_get entry (ustr "feedback") (JStr []) ;;
  question <- py_get entry (ustr "question") (JStr []) ;;
  question <- validate_str "ScoreDetail" question ;;
  feedback <- validate_str "ScoreDetail" feedback ;;
  Ok {| ScoreDetail.question_id := QuestionItem.question_id original_item;
        ScoreDetail.question := question;
        ScoreDetail.score := score;
        ScoreDetail.correct := correct;
        ScoreDetail.feedback := feedback |}.

(** [for entry, original_item in zip(raw, submission.items): ...], with
    [total] and [details] threaded through. *)
Fixpoint evaluate_loop (total : float) (details : list ScoreDetail.t)
  (pairs : list (json * QuestionItem.t)) : result (float * list ScoreDetail.t) :=
  match pairs with
  | [] => Ok (total, details)
  | (entry, original_item) :: rest =>
      d <- score_detail entry original_item ;;
      evaluate_loop (total + ScoreDetail.score d)%float (details ++ [d]) rest
  end.

(** The [try] block of [/evaluate]. *)
Definition evaluate_try (call : client) (submission : Submission.t) (prompt : pystr)
  : result ScoreResponse.t :=
  resp <- call gemini_model prompt ;;
  content <- response_text resp ;;
  let content := strip_fences_first_last content in
  raw <- loads content ;;
  entries <- py_iter raw ;;
  res <- evaluate_loop zero [] (combine entries (Submission.items submission)) ;;
  Ok {| ScoreResponse.total_score := fst res; ScoreResponse.details := snd res |}.

(** [POST /evaluate] *)
Definition evaluate (call : client) (submission : Submission.t) : response ScoreResponse.t :=
  let prompt := build_evaluation_prompt (Submission.items submission) in
  match evaluate_try call submission prompt with
  | Ok r => HOk r
  | Raise e => HError 500 (str_exn e)
  end.

Definition swot_analysis_try (call : client) (prompt : pystr) : result SWOTResponse.t :=
  resp <- call gemini_model prompt ;;
  content <- response_text resp ;;
  let content := strip_fences_first_last content in
  data <- loads content ;;
  s <- py_get data (ustr "strengths") (JStr []) ;;
  w <- py_get data (ustr "weaknesses") (JStr []) ;;
  o <- py_get data (ustr "opportunities") (JStr []) ;;
  t <- py_get data (ustr "threats") (JStr []) ;;
  s <- validate_str "SWOTResponse" s ;;
  w <- validate_str "SWOTResponse" w ;;
  o <- validate_str "SWOTResponse" o ;;
  t <- validate_str "SWOTResponse" t ;;
  Ok {| SWOTResponse.strengths := s; SWOTResponse.weaknesses := w;
        SWOTResponse.opportunities := o; SWOTResponse.threats := t |}.

(** [POST /swot] *)
Definition swot_analysis (call : client) (submission : Submission.t) : response SWOTResponse.t :=
  let prompt := build_swot_prompt (Submission.items submission) in
  match swot_analysis_try call prompt with
  | Ok r => HOk r
  | Raise e => HError 500 (str_exn e)
  end.

(** [GeneratedQuestion(question=q.get("question"),
    expected_answer=q.get("expected_answer"))] *)
Definition generated_question (q : json) : result GeneratedQuestion.t :=
  question <- py_get q (ustr "question") JNull ;;
  expected <- py_get q (ustr "expected_answer") JNull ;;
  question <- validate_str "GeneratedQuestion" question ;;
  expected <- validate_str "GeneratedQuestion" expected ;;
  Ok {| GeneratedQuestion.question := question; GeneratedQuestion.expected_answer := expected |}.

Definition empty_list_detail : pystr := ustr "Gemini returned an empty list".
Definition bad_structure_detail : pystr := ustr "Unexpected Gemini response structure".

(** Steps 3 and 4 of [/generate-qa] (app.py lines 294-297): a list is
    replaced by its first element. *)
Definition first_if_list (parsed : json) : result json :=
  match parsed with
  | JArr [] => Raise (HTTPException 500 empty_list_detail)
  | JArr (p :: _) => Ok p
  | _ => Ok parsed
  end.

(** The [try] block of [/generate-qa] (app.py). *)
Definition generate_questions_try (call : client) (prompt : pystr)
  : result QuestionGenerationResponse.t :=
  response <- call gemini_model prompt ;;
  text <- response_text response ;;
  let content := strip_fence_lines text in
  parsed <- loads content ;;
  parsed <- first_if_list parsed ;;
  match parsed with
  | JObj kvs =>
      match lookup (ustr "questions") kvs with
      | Some qs =>
          xs <- py_iter qs ;;
          questions <- map_r generated_question xs ;;
          Ok {| QuestionGenerationResponse.questions := questions |}
      | None => Raise (HTTPException 500 bad_structure_detail)
      end
  | _ => Raise (HTTPException 500 bad_structure_detail)
  end.

(** [POST /generate-qa] *)
Definition generate_questions (call : client) (request : QuestionGenerationRequest.t)
  : response QuestionGenerationResponse.t :=
  let prompt := build_question_generation_prompt request in
  match generate_questions_try call prompt with
  | Ok r => HOk r
  | Raise e => HError 500 (ustr "Gemini Error: " ++ str_exn e)
  end.

Definition length_error : pystr := ustr "Expected a JSON array of length 3".

(** The [try] block of [/generate-alternatives]. *)
Definition generate_alternatives_try (call : client) (prompt : pystr)
  : result (list AlternativeQuestion.t) :=
  resp <- call gemini_model prompt ;;
  text <- response_text resp ;;
  let content := strip_fence_lines text in
  parsed <- loads content ;;
  match parsed with
  | JArr l =>
      if Nat.eqb (List.length l) 3 then map_r alternative_question l
      else Raise (ValueError length_error)
  | _ => Raise (ValueError length_error)
  end.

(** [POST /generate-alternatives]; the [logging.exception] call before the
    [raise] only writes to the log. *)
Definition generate_alternatives (call : client) (req : AlternativeRequest.t)
  : response (list AlternativeQuestion.t) :=
  let prompt := build_alternatives_prompt req in
  match generate_alternatives_try call prompt with
  | Ok r => HOk r
  | Raise e => HError 500 (ustr "Gemini error: " ++ str_exn e)
  end.

(** [GET /health-check]; it is given the client like the other endpoints. *)
Definition health_check (call : client) : response (list (pystr * pystr)) :=
  HOk [(ustr "status", ustr "ok")].

(** ** src/eval_gen_api.py

    The other version of the service.  Its [/evaluate] is the code of
    app.py lines 209-244 line for line (so [evaluate] above is also its
    embedding); its [/swot] is app.py's apart from the text of the SWOT
    prompt; its [/generate-qa] prompt ends with another example, and the
    endpoint itself differs (lines 214-240). *)

Module EvalGenApi.

Import Prompts.

Definition qg_tail : pystr :=
  ustr "

For each question, provide an expected answer clearly. Return the output as a JSON array with fields:
- `question`: the full question text.
- `expected_answer`: the correct answer to that question. 

### Example format:
[
  {
    "
  ++ dq
  ++ ustr "question"
  ++ dq
  ++ ustr ": "
  ++ dq
  ++ ustr "What is ...?"
  ++ dq
  ++ ustr ",
    "
  ++ dq
  ++ ustr "expected_answer"
  ++ dq
  ++ ustr ": "
  ++ dq
  ++ ustr "..."
  ++ dq
  ++ ustr "
  },
  ...
]

ONLY return a valid JSON array and nothing else. Now generate the questions:
    ".

Definition swot_instructions : pystr :=
  ustr "
You are an educational expert with extensive experience in student assessment and performance analysis.

Review the following set of student responses (along with the expected answers) and provide a ingle, overall SWOT analysis summarizing the student's overall performance "
  ++ [8212%N]
  ++ ustr " not per question.

Focus on:
- **Strengths**: What are the overall areas where this student shows strong understanding or skill across the test? Provide general patterns and examples.
- **Weaknesses**: What general mistakes, gaps, or weaknesses appear across the responses?
- **Opportunities**: What can this student do to improve overall? Suggest strategies, resources, or approaches they can take.
- **Threats**: Are there any risks or challenges (like misconceptions, bad habits, or external issues) that might limit their progress?

- Make sure that the analysis is very helpful, natural and very human like as if how a real person would advice and not robotic
- Also always use "
  ++ dq
  ++ ustr "you"
  ++ dq
  ++ ustr " instead of student should do this,etc. Make it sound personalised to that particular person

RETURN FORMAT:
Return the SWOT analysis as a single JSON object with these four keys:
- strengths (string)
- weaknesses (string)
- opportunities (string)
- threats (string)

Be detailed, constructive, and base your analysis on overall trends, not per-question breakdowns.

".

(** [build_question_generation_prompt(payload)] (eval_gen_api.py lines
    73-98): the fixed text up to the instructions is app.py's. *)
Definition build_question_generation_prompt (payload : QuestionGenerationRequest.t) : pystr :=
  qg_intro ++ str_Z (QuestionGenerationRequest.number_of_questions payload)
  ++ qg_after_number ++ QuestionGenerationRequest.question_type payload
  ++ qg_after_type ++ QuestionGenerationRequest.topics payload
  ++ qg_after_topics ++ QuestionGenerationRequest.subject payload
  ++ qg_after_subject ++ QuestionGenerationRequest.class_ payload
  ++ qg_after_class ++ QuestionGenerationRequest.difficulty payload
  ++ qg_after_difficulty ++ QuestionGenerationRequest.instructions payload
  ++ qg_tail.

(** [build_swot_prompt(items)] (lines 156-187). *)
Definition build_swot_prompt (items : list QuestionItem.t) : pystr :=
  let context :=
    join newline
      (map (fun item =>
              ustr "Question: " ++ QuestionItem.question item
              ++ newline ++ ustr "Student Answer: " ++ QuestionItem.actual_answer item
              ++ newline ++ ustr "Expected Answer: " ++ QuestionItem.expected_answer item
              ++ newline) items) in
  swot_instructions ++ context.

(** [POST /swot] (lines 190-212): app.py's [try] block on this prompt. *)
Definition swot_analysis (call : client) (submission : Submission.t) : response SWOTResponse.t :=
  let prompt := build_swot_prompt (Submission.items submission) in
  match swot_analysis_try call prompt with
  | Ok r => HOk r
  | Raise e => HError 500 (str_exn e)
  end.

(** The response model of [/generate-qa] in this file (lines 67-71). *)
Module QuestionGenerationResponse.
Record t := {
  test_title : pystr;
  subject : pystr;
  class_ : pystr;
  questions : list GeneratedQuestion.t }.
End QuestionGenerationResponse.

(** The exceptions of this endpoint: those of the rest of the service, and
    the [KeyError] of a missing [dict] key. *)
Inductive error :=
| Exn (e : exn)
| KeyError (key : pystr).

(** [str(e)]; [str(KeyError(k))] is [repr(k)], which is [k] in single
    quotes for the keys used here (plain ASCII letters and [_]). *)
Definition str_error (e : error) : pystr :=
  match e with
  | Exn e => str_exn e
  | KeyError k => ustr "'" ++ k ++ ustr "'"
  end.

(** A computation of this endpoint: its value, or the exception raised. *)
Definition eresult (A : Type) : Type := (error + A)%type.

Definition lift {A} (r : result A) : eresult (A) :=
  match r with
  | Ok a => inr a
  | Raise e => inl (Exn e)
  end.

Definition ebind {A B} (m : eresult (A)) (k : A -> eresult (B)) : eresult (B) :=
  match m with
  | inr a => k a
  | inl e => inl e
  end.

Fixpoint map_e {A B} (f : A -> eresult (B)) (l : list A) : eresult (list B) :=
  match l with
  | [] => inr []
  | x :: r => ebind (f x) (fun y => ebind (map_e f r) (fun ys => inr (y :: ys)))
  end.

(** [q[k]] with a [str] key [k]. *)
Definition subscript (q : json) (k : pystr) : eresult (json) :=
  match q with
  | JObj kvs => match lookup k kvs with Some v => inr v | None => inl (KeyError k) end
  | JArr _ => inl (Exn (TypeError (ustr "list indices must be integers or slices, not str")))
  | JStr _ => inl (Exn (TypeError (ustr "string indices must be integers, not 'str'")))
  | _ => inl (Exn (TypeError (ustr "'" ++ type_name q ++ ustr "' object is not subscriptable")))
  end.

(** [GeneratedQuestion(question=q["question"],
    expected_answer=q["expected_answer"])] *)
Definition generated_question (q : json) : eresult (GeneratedQuestion.t) :=
  ebind (subscript q (ustr "question")) (fun question =>
  ebind (subscript q (ustr "expected_answer")) (fun expected =>
  ebind (lift (validate_str "GeneratedQuestion" question)) (fun question =>
  ebind (lift (validate_str "GeneratedQuestion" expected)) (fun expected =>
  inr {| GeneratedQuestion.question := question;
         GeneratedQuestion.expected_answer := expected |})))).

(** Lines 222-225: the text is stripped first, then its first and last
    lines are dropped when it starts with a fence. *)
Definition strip_fences_after_strip (text : pystr) : pystr :=
  let content := strip text in
  if startswith fence content then join newline (slice_1_m1 (splitlines content))
  else content.

(** The [try] block of [/generate-qa] (lines 217-237). *)
Definition generate_questions_try (call : client) (request : QuestionGenerationRequest.t)
  (prompt : pystr) : eresult (QuestionGenerationResponse.t) :=
  ebind (lift (call gemini_model prompt)) (fun response =>
  ebind (lift (response_text response)) (fun text =>
  let content := strip_fences_after_strip text in
  ebind (lift (loads content)) (fun questions_json =>
  ebind (lift (py_iter questions_json)) (fun xs =>
  ebind (map_e generated_question xs) (fun questions =>
  inr {| QuestionGenerationResponse.test_title := QuestionGenerationRequest.title request;
         QuestionGenerationResponse.subject := QuestionGenerationRequest.subject request;
         QuestionGenerationResponse.class_ := QuestionGenerationRequest.class_ request;
         QuestionGenerationResponse.questions := questions |}))))).

(** [POST /generate-qa] (lines 214-240). *)
Definition generate_questions (call : client) (request : QuestionGenerationRequest.t)
  : response QuestionGenerationResponse.t :=
  let prompt := build_question_generation_prompt request in
  match generate_questions_try call request prompt with
  | inr r => HOk r
  | inl e => HError 500 (ustr "Gemini Error: " ++ str_error e)
  end.

End EvalGenApi.

(** ** Auxiliary definitions for the statements *)

(** [t.split("\n")], the line being read kept reversed in [cur]. *)
Fixpoint split_nl_aux (cur : pystr) (t : pystr) : list pystr :=
  match t with
  | [] => [rev cur]
  | c :: r => if N.eqb c 10 then rev cur :: split_nl_aux [] r else split_nl_aux (c :: cur) r
  end.

Definition split_nl (t : pystr) : list pystr := split_nl_aux [] t.

(** [t] in a Markdown code block: the fence with a language tag on the
    first line, [t], and the fence alone on the last line. *)
Definition fenced (tag t : pystr) : pystr := fence ++ tag ++ newline ++ t ++ newline ++ fence.

(** The scores of [details] added from left to right, starting at [0.0]. *)
Definition sum_scores (details : list ScoreDetail.t) : float :=
  fold_left (fun acc d => (acc + ScoreDetail.score d)%float) details zero.

(** A model client that answers every prompt with the text [t]. *)
Definition answer (t : pystr) : client := fun _ _ => Ok (Some t).

(** A JSON string literal holding the ASCII text [s]. *)
Definition jq (s : string) : pystr := dq ++ ustr s ++ dq.

Definition item_q1 : QuestionItem.t :=
  {| QuestionItem.question_id := ustr "q1";
     QuestionItem.question := ustr "What is 2 + 2?";
     QuestionItem.actual_answer := ustr "5";
     QuestionItem.expected_answer := ustr "4" |}.

Definition item_q2 : QuestionItem.t :=
  {| QuestionItem.question_id := ustr "q2";
     QuestionItem.question := ustr "What is the capital of France?";
     QuestionItem.actual_answer := ustr "Paris";
     QuestionItem.expected_answer := ustr "Paris" |}.

Definition submission_1 : Submission.t := {| Submission.items := [item_q1] |}.
Definition submission_2 : Submission.t := {| Submission.items := [item_q1; item_q2] |}.

(** A fenced model answer with two entries, the second one reduced to its
    score. *)
Definition model_answer_2 : pystr :=
  fenced (ustr "json")
    (ustr "[{" ++ jq "score" ++ ustr ": 7, " ++ jq "correct" ++ ustr ": true, "
     ++ jq "feedback" ++ ustr ": " ++ jq "Good" ++ ustr ", " ++ jq "question"
     ++ ustr ": " ++ jq "2+2" ++ ustr "}," ++ newline ++ ustr " {" ++ jq "score"
     ++ ustr ": 2.5}]").

Definition qg_request : QuestionGenerationRequest.t :=
  {| QuestionGenerationRequest.title := ustr "Unit test";
     QuestionGenerationRequest.subject := ustr "Maths";
     QuestionGenerationRequest.class_ := ustr "7";
     QuestionGenerationRequest.start_date := ustr "2025-01-01";
     QuestionGenerationRequest.end_date := ustr "2025-01-02";
     QuestionGenerationRequest.question_type := ustr "short answer";
     QuestionGenerationRequest.number_of_questions := 2;
     QuestionGenerationRequest.difficulty := ustr "easy";
     QuestionGenerationRequest.topics := ustr "fractions";
     QuestionGenerationRequest.instructions := ustr "none";
     QuestionGenerationRequest.description := ustr "d";
     QuestionGenerationRequest.max_score := 10;
     QuestionGenerationRequest.passing_score := 5 |}.

Definition alt_request : AlternativeRequest.t :=
  {| AlternativeRequest.id := ustr "Q7";
     AlternativeRequest.title := ustr "Unit test";
     AlternativeRequest.description := ustr "d";
     AlternativeRequest.subtopic := ustr "fractions";
     AlternativeRequest.difficulty := ustr "easy";
     AlternativeRequest.marks := 2;
     AlternativeRequest.questionType := SHORT_ANSWER;
     AlternativeRequest.subject := ustr "Maths" |}.

(** One schema-conforming alternative question. *)
Definition alt_json : pystr :=
  ustr "{" ++ jq "id" ++ ustr ": " ++ jq "Q7" ++ ustr ", " ++ jq "type" ++ ustr ": "
  ++ jq "SHORT_ANSWER" ++ ustr ", " ++ jq "text" ++ ustr ": " ++ jq "1/2+1/2?"
  ++ ustr ", " ++ jq "answer_type" ++ ustr ": " ++ jq "Text" ++ ustr ", "
  ++ jq "expected_answer" ++ ustr ": " ++ jq "1" ++ ustr ", " ++ jq "marks" ++ ustr ": 2}".

(** The block the evaluation prompt gives the item numbered [idx]. *)
Definition eval_block (idx : Z) (item : QuestionItem.t) : pystr :=
  str_Z idx ++ ustr ". Question: " ++ QuestionItem.question item ++ newline
  ++ ustr "Student Answer: " ++ QuestionItem.actual_answer item ++ newline
  ++ ustr "Expected Answer: " ++ QuestionItem.expected_answer item ++ newline ++ newline.

(** The block the SWOT prompt gives one item. *)
Definition swot_block (item : QuestionItem.t) : pystr :=
  ustr "Question: " ++ QuestionItem.question item
  ++ newline ++ ustr "Student Answer: " ++ QuestionItem.actual_answer item
  ++ newline ++ ustr "Expected Answer: " ++ QuestionItem.expected_answer item
  ++ newline.

(** The value a SWOT field takes from the items [kvs] of the model's
    object: the string under key [k], or the empty string when [k] is
    absent. *)
Definition field_value (kvs : list (pystr * json)) (k : string) (s : pystr) : Prop :=
  lookup (ustr k) kvs = Some (JStr s) \/ (lookup (ustr k) kvs = None /\ s = []).

(** [item_q1] and [item_q2] with other questions and answers. *)
Definition item_q1' : QuestionItem.t :=
  {| QuestionItem.question_id := ustr "q1";
     QuestionItem.question := ustr "Name a prime number.";
     QuestionItem.actual_answer := ustr "9";
     QuestionItem.expected_answer := ustr "7" |}.

Definition item_q2' : QuestionItem.t :=
  {| QuestionItem.question_id := ustr "q2";
     QuestionItem.question := ustr "Spell cat.";
     QuestionItem.actual_answer := ustr "cat";
     QuestionItem.expected_answer := ustr "cat" |}.

Definition submission_2' : Submission.t := {| Submission.items := [item_q1'; item_q2'] |}.

(** [alt_request] asking for the id [Q9] and for MCQ questions. *)
Definition alt_request_q9 : AlternativeRequest.t :=
  {| AlternativeRequest.id := ustr "Q9";
     AlternativeRequest.title := ustr "Unit test";
     AlternativeRequest.description := ustr "d";
     AlternativeRequest.subtopic := ustr "fractions";
     AlternativeRequest.difficulty := ustr "easy";
     AlternativeRequest.marks := 5;
     AlternativeRequest.questionType := MCQ;
     AlternativeRequest.subject := ustr "Maths" |}.

(** ** Evaluation on concrete inputs *)

Example evaluate_two_items :
  evaluate (answer model_answer_2) submission_2
  = HOk {| ScoreResponse.total_score := 9.5;
           ScoreResponse.details :=
             [{| ScoreDetail.question_id := ustr "q1"; ScoreDetail.question := ustr "2+2";
                 ScoreDetail.score := 7; ScoreDetail.correct := true;
                 ScoreDetail.feedback := ustr "Good" |};
              {| ScoreDetail.question_id := ustr "q2"; ScoreDetail.question := [];
                 ScoreDetail.score := 2.5; ScoreDetail.correct := false;
                 ScoreDetail.feedback := [] |}] |}.
Proof. vm_compute. reflexivity. Qed.

Example loads_truncated_array :
  exists pos, loads (ustr "[1,") = Raise (JSONDecodeError "Expecting value" (ustr "[1,") pos).
Proof. eexists. vm_compute. reflexivity. Qed.

Example generate_alternatives_three :
  exists qs, generate_alternatives
    (answer (ustr "[" ++ alt_json ++ ustr "," ++ alt_json ++ ustr "," ++ alt_json ++ ustr "]"))
    alt_request = HOk qs /\ List.length qs = 3.
Proof. eexists. vm_compute. split; reflexivity. Qed.

(** ** Fence stripping *)

Lemma lstrip_nonspace (c : N) (r : pystr) :
  isspace c = false -> lstrip (c :: r) = c :: r.
Proof. intros H. simpl. now rewrite H. Qed.

Lemma lstrip_app_nonspace (a b : pystr) (c : N) :
  isspace c = false -> exists a', lstrip (a ++ c :: b) = a' ++ c :: b.
Proof.
  intros Hc. induction a as [|x a IH]; simpl.
  - exists []. now rewrite Hc.
  - destruct (isspace x).
    + exact IH.
    + now exists (x :: a).
Qed.

Lemma fence_eq : fence = [96%N; 96%N; 96%N].
Proof. reflexivity. Qed.

Lemma strip_ends (c d : N) (m : pystr) :
  isspace c = false -> isspace d = false -> strip (c :: m ++ [d]) = c :: m ++ [d].
Proof.
  intros Hc Hd. unfold strip, rstrip.
  rewrite lstrip_nonspace by exact Hc.
  rewrite app_comm_cons, rev_unit, lstrip_nonspace by exact Hd.
  simpl. now rewrite rev_app_distr, rev_involutive.
Qed.

Lemma strip_fenced (tag t : pystr) : strip (fenced tag t) = fenced tag t.
Proof.
  unfold fenced. rewrite fence_eq.
  replace ([96%N; 96%N; 96%N] ++ tag ++ newline ++ t ++ newline ++ [96%N; 96%N; 96%N])
    with (96%N :: (96%N :: 96%N :: tag ++ newline ++ t ++ newline ++ [96%N; 96%N]) ++ [96%N])
    by (unfold newline; simpl; repeat (rewrite <- app_assoc; simpl); reflexivity).
  apply strip_ends; reflexivity.
Qed.

Lemma startswith_fence_app (x : pystr) : startswith fence (fence ++ x) = true.
Proof. reflexivity. Qed.

Lemma strip_fence_line (x : pystr) : startswith fence (strip (fence ++ x)) = true.
Proof.
  unfold strip, rstrip. rewrite fence_eq. simpl app.
  rewrite lstrip_nonspace by reflexivity.
  change (96%N :: 96%N :: 96%N :: x) with ([96%N; 96%N; 96%N] ++ x).
  rewrite rev_app_distr. simpl (rev [96%N; 96%N; 96%N]).
  destruct (lstrip_app_nonspace (rev x) [96%N; 96%N] 96%N) as [a' Ha]; [reflexivity|].
  rewrite Ha, rev_app_distr. reflexivity.
Qed.

Lemma linebreak_13 : is_linebreak 13 = true.
Proof. reflexivity. Qed.

Lemma splitlines_aux_app_plain (cur x s : pystr) :
  Forall (fun c => is_linebreak c = false) x ->
  splitlines_aux cur (x ++ s) = splitlines_aux (rev x ++ cur) s.
Proof.
  revert cur. induction x as [|c x IH]; intros cur Hx; simpl; [reflexivity|].
  inversion Hx as [|? ? Hc Hx']; subst.
  assert (N.eqb c 13 = false).
  { apply N.eqb_neq. intros ->. rewrite linebreak_13 in Hc. discriminate. }
  rewrite H, Hc, IH by exact Hx'. now rewrite <- app_assoc.
Qed.

Lemma splitlines_fence : splitlines_aux [] fence = [fence].
Proof. reflexivity. Qed.

Lemma splitlines_tail (cur t : pystr) :
  Forall (fun c => c = 10%N \/ is_linebreak c = false) t ->
  splitlines_aux cur (t ++ newline ++ fence) = split_nl_aux cur t ++ [fence].
Proof.
  revert cur. induction t as [|c t IH]; intros cur Ht; simpl.
  - reflexivity.
  - inversion Ht as [|? ? Hc Ht']; subst.
    destruct Hc as [-> | Hc].
    + simpl. f_equal. apply IH, Ht'.
    + assert (Hc13 : N.eqb c 13 = false).
      { apply N.eqb_neq. intros ->. rewrite linebreak_13 in Hc. discriminate. }
      assert (Hc10 : N.eqb c 10 = false).
      { apply N.eqb_neq. intros ->. discriminate. }
      rewrite Hc13, Hc, Hc10. apply IH, Ht'.
Qed.

Lemma split_nl_aux_not_nil (cur t : pystr) : split_nl_aux cur t <> [].
Proof.
  revert cur. induction t as [|c t IH]; intros cur; simpl; [discriminate|].
  destruct (N.eqb c 10); [discriminate | apply IH].
Qed.

Lemma join_cons (sep x : pystr) (l : list pystr) :
  l <> [] -> join sep (x :: l) = x ++ sep ++ join sep l.
Proof. destruct l; [congruence | reflexivity]. Qed.

Lemma join_split_nl (cur t : pystr) : join newline (split_nl_aux cur t) = rev cur ++ t.
Proof.
  revert cur. induction t as [|c t IH]; intros cur; simpl.
  - now rewrite app_nil_r.
  - destruct (N.eqb c 10) eqn:Hc.
    + apply N.eqb_eq in Hc. subst c.
      rewrite join_cons by apply split_nl_aux_not_nil.
      now rewrite IH.
    + rewrite IH. simpl. now rewrite <- app_assoc.
Qed.

Lemma splitlines_aux_nl (cur s : pystr) :
  splitlines_aux cur (10%N :: s) = rev cur :: splitlines_aux [] s.
Proof. reflexivity. Qed.

Lemma splitlines_fenced (tag t : pystr) :
  Forall (fun c => is_linebreak c = false) tag ->
  Forall (fun c => c = 10%N \/ is_linebreak c = false) t ->
  splitlines (fenced tag t) = (fence ++ tag) :: split_nl t ++ [fence].
Proof.
  intros Htag Ht. unfold splitlines, fenced.
  assert (Hft : Forall (fun c => is_linebreak c = false) (fence ++ tag)).
  { apply Forall_app. split; [repeat constructor | exact Htag]. }
  rewrite app_assoc, (splitlines_aux_app_plain [] (fence ++ tag)) by exact Hft.
  change (newline ++ t ++ newline ++ fence) with (10%N :: (t ++ newline ++ fence)).
  rewrite splitlines_aux_nl, app_nil_r, rev_involutive. f_equal.
  apply splitlines_tail, Ht.
Qed.

Lemma slice_middle {A} (a b : A) (xs : list A) : slice_1_m1 (a :: xs ++ [b]) = xs.
Proof.
  unfold slice_1_m1. simpl. rewrite length_app. simpl.
  replace (length xs + 1 - 1) with (length xs) by lia.
  rewrite firstn_app, firstn_all, Nat.sub_diag. simpl. apply app_nil_r.
Qed.

Lemma filter_keep_lines (l : list pystr) :
  Forall (fun line => startswith fence (strip line) = false) l ->
  filter (fun line => negb (startswith fence (strip line))) l = l.
Proof.
  induction 1 as [|x l Hx _ IH]; cbn [filter]; [reflexivity|].
  now rewrite Hx, IH.
Qed.

Lemma strip_fence_itself : startswith fence (strip fence) = true.
Proof. reflexivity. Qed.

(** C6 (amended).  For a text [t] whose only line boundary is ["\n"] and
    which, once stripped, does not start with a fence, and a fence tag
    without line boundaries: the normaliser of [/evaluate] and [/swot] maps
    the fenced text to exactly [t], as it maps [t] itself; when no line of
    [t] starts with a fence, the normaliser of [/generate-qa] and
    [/generate-alternatives] maps the fenced text to [t] and [t] itself to
    [t] stripped of surrounding whitespace, so that the two results agree
    when [t] has no surrounding whitespace. *)
Theorem fence_stripping_newline_text (tag t : pystr) :
  Forall (fun c => is_linebreak c = false) tag ->
  Forall (fun c => c = 10%N \/ is_linebreak c = false) t ->
  startswith fence (strip t) = false ->
  strip_fences_first_last (fenced tag t) = t /\ strip_fences_first_last t = t /\
  (Forall (fun line => startswith fence (strip line) = false) (split_nl t) ->
   strip_fence_lines (fenced tag t) = t /\ strip_fence_lines t = strip t /\
   (strip t = t -> strip_fence_lines (fenced tag t) = strip_fence_lines t)).
Proof.
  intros Htag Ht Hs.
  assert (Hf : startswith fence (fenced tag t) = true)
    by (unfold fenced; apply startswith_fence_app).
  unfold strip_fences_first_last, strip_fence_lines. cbv zeta.
  rewrite strip_fenced, Hs, Hf, splitlines_fenced by assumption.
  split; [|split; [reflexivity|]].
  - rewrite slice_middle. unfold split_nl. now rewrite join_split_nl.
  - intros Hl.
    assert (Hw : join newline (filter (fun line => negb (startswith fence (strip line)))
                   ((fence ++ tag) :: split_nl t ++ [fence])) = t).
    { cbn [filter]. rewrite strip_fence_line. cbn [negb].
      rewrite filter_app, filter_keep_lines by exact Hl.
      cbn [filter]. rewrite strip_fence_itself. cbn [negb].
      rewrite app_nil_r. unfold split_nl. now rewrite join_split_nl. }
    rewrite Hw. split; [reflexivity|]. split; [reflexivity|].
    intros Hst. exact (eq_sym Hst).
Qed.

(** A two-line JSON text in a [json] code block. *)
Lemma fence_stripping_newline_text_witness :
  let t := ustr "[1," ++ newline ++ ustr " 2]" in
  (Forall (fun c => is_linebreak c = false) (ustr "json") /\
   Forall (fun c => c = 10%N \/ is_linebreak c = false) t /\
   startswith fence (strip t) = false /\
   Forall (fun line => startswith fence (strip line) = false) (split_nl t)) /\
  strip_fences_first_last (fenced (ustr "json") t) = t /\
  strip_fence_lines (fenced (ustr "json") t) = t.
Proof.
  intros t.
  assert (H1 : Forall (fun c => is_linebreak c = false) (ustr "json"))
    by repeat constructor.
  assert (H2 : Forall (fun c => c = 10%N \/ is_linebreak c = false) t).
  { unfold t. simpl.
    repeat (apply Forall_cons; [(left; reflexivity) || (right; reflexivity)|]).
    apply Forall_nil. }
  assert (H3 : startswith fence (strip t) = false) by reflexivity.
  assert (H4 : Forall (fun line => startswith fence (strip line) = false) (split_nl t))
    by (vm_compute; repeat constructor).
  destruct (fence_stripping_newline_text (ustr "json") t H1 H2 H3) as [A [_ C]].
  destruct (C H4) as [D _].
  split; [repeat split; assumption|split; assumption].
Defined.

(** C6 (counterexample).  The JSON text holding the one string ["a\x85b"]
    (a NEXT LINE character, which JSON allows inside a string) parses when
    given unfenced, while its fenced form is split at that character by
    [splitlines] and rejected by [json.loads]: for both normalisers.  And
    the text [[1]] after an IDEOGRAPHIC SPACE parses unfenced, the
    whitespace being stripped, while the line-filter normaliser keeps that
    space in the fenced form, which [json.loads] rejects. *)
Lemma fence_stripping_changes_result :
  let t := dq ++ ustr "a" ++ [133%N] ++ ustr "b" ++ dq in
  let u := [12288%N] ++ ustr "[1]" in
  loads (strip_fences_first_last t) = Ok (JStr [97%N; 133%N; 98%N]) /\
  (exists e, loads (strip_fences_first_last (fenced (ustr "json") t)) = Raise e) /\
  loads (strip_fence_lines t) = Ok (JStr [97%N; 133%N; 98%N]) /\
  (exists e, loads (strip_fence_lines (fenced (ustr "json") t)) = Raise e) /\
  loads (strip_fence_lines u) = Ok (JArr [JInt 1]) /\
  (exists e, loads (strip_fence_lines (fenced (ustr "json") u)) = Raise e).
Proof.
  intros t u. split; [vm_compute; reflexivity|].
  split; [eexists; vm_compute; reflexivity|].
  split; [vm_compute; reflexivity|].
  split; [eexists; vm_compute; reflexivity|].
  split; [vm_compute; reflexivity|].
  eexists; vm_compute; reflexivity.
Qed.

(** ** The loop of [/evaluate] *)

Lemma bind_Ok {A B} (m : result A) (k : A -> result B) (b : B) :
  bind m k = Ok b <-> exists a, m = Ok a /\ k a = Ok b.
Proof.
  destruct m as [a|e]; simpl; split.
  - intros H. now exists a.
  - intros (a' & Ha & Hk). now inversion Ha; subst.
  - discriminate.
  - intros (a' & Ha & _). discriminate.
Qed.

Lemma score_detail_id (e : json) (it : QuestionItem.t) (d : ScoreDetail.t) :
  score_detail e it = Ok d -> ScoreDetail.question_id d = QuestionItem.question_id it.
Proof.
  unfold score_detail.
  intros H.
  repeat match type of H with
  | bind _ _ = Ok _ => apply bind_Ok in H; destruct H as (? & _ & H)
  end.
  inversion H. reflexivity.
Qed.

(** The loop appends one detail per pair, in order, and adds the scores from
    left to right. *)
Lemma evaluate_loop_spec (total : float) (ds : list ScoreDetail.t)
  (pairs : list (json * QuestionItem.t)) (t : float) (ds' : list ScoreDetail.t) :
  evaluate_loop total ds pairs = Ok (t, ds') <->
  exists fresh, Forall2 (fun p d => score_detail (fst p) (snd p) = Ok d) pairs fresh /\
    ds' = ds ++ fresh /\
    t = fold_left (fun acc d => (acc + ScoreDetail.score d)%float) fresh total.
Proof.
  revert total ds. induction pairs as [|[e it] rest IH]; intros total ds; simpl.
  - split.
    + intros H. inversion H. exists []. rewrite app_nil_r. auto.
    + intros (fresh & Hf & -> & ->). inversion Hf. simpl. now rewrite app_nil_r.
  - rewrite bind_Ok. split.
    + intros (d & Hd & Hl). apply IH in Hl. destruct Hl as (fresh & Hf & -> & ->).
      exists (d :: fresh). rewrite <- app_assoc. auto.
    + intros (fresh & Hf & -> & ->). inversion Hf as [|p d pr fr Hd Hr]; subst.
      exists d. split; [exact Hd|]. apply IH. exists fr. rewrite <- app_assoc. auto.
Qed.

(** The loop succeeds exactly when every pair converts. *)
Lemma evaluate_loop_succeeds (total : float) (ds : list ScoreDetail.t)
  (pairs : list (json * QuestionItem.t)) :
  (exists res, evaluate_loop total ds pairs = Ok res) <->
  Forall (fun p => exists d, score_detail (fst p) (snd p) = Ok d) pairs.
Proof.
  revert total ds. induction pairs as [|[e it] rest IH]; intros total ds; simpl.
  - split; [constructor|]. intros _. eauto.
  - split.
    + intros ([t ds'] & H). apply bind_Ok in H. destruct H as (d & Hd & Hl).
      constructor; [eauto|]. apply (IH (total + ScoreDetail.score d)%float (ds ++ [d])). eauto.
    + intros Hf. inversion Hf as [|p pr [d Hd] Hr]; subst. simpl in Hd.
      destruct (proj2 (IH (total + ScoreDetail.score d)%float (ds ++ [d])) Hr) as [res Hres].
      exists res. rewrite Hd. exact Hres.
Qed.

Lemma map_snd_combine {A B} (l1 : list A) (l2 : list B) :
  map snd (combine l1 l2) = firstn (List.length l1) l2.
Proof.
  revert l2. induction l1 as [|a l1 IH]; intros [|b l2]; simpl; auto. now rewrite IH.
Qed.

Lemma Forall_combine_Forall2 {A B} (R : A -> B -> Prop) (l1 : list A) (l2 : list B) :
  List.length l1 = List.length l2 ->
  Forall (fun p => R (fst p) (snd p)) (combine l1 l2) <-> Forall2 R l1 l2.
Proof.
  revert l2. induction l1 as [|a l1 IH]; intros [|b l2] Hlen; simpl in *; try discriminate.
  - split; constructor.
  - split.
    + intros H. inversion H; subst. constructor; [assumption|]. apply IH; [lia|assumption].
    + intros H. inversion H; subst. constructor; [assumption|]. apply IH; [lia|assumption].
Qed.

Lemma Forall2_ids (pairs : list (json * QuestionItem.t)) (fresh : list ScoreDetail.t) :
  Forall2 (fun p d => score_detail (fst p) (snd p) = Ok d) pairs fresh ->
  map ScoreDetail.question_id fresh = map QuestionItem.question_id (map snd pairs).
Proof.
  induction 1 as [|p d pr fr Hd _ IH]; simpl; [reflexivity|].
  now rewrite (score_detail_id _ _ _ Hd), IH.
Qed.

(** [/evaluate] once the model has answered with a JSON array. *)
Lemma evaluate_on_array (call : client) (sub : Submission.t) (t : pystr) (l : list json) :
  call gemini_model (build_evaluation_prompt (Submission.items sub)) = Ok (Some t) ->
  loads (strip_fences_first_last t) = Ok (JArr l) ->
  evaluate call sub =
  match evaluate_loop zero [] (combine l (Submission.items sub)) with
  | Ok res => HOk {| ScoreResponse.total_score := fst res; ScoreResponse.details := snd res |}
  | Raise e => HError 500 (str_exn e)
  end.
Proof.
  intros Hc Hl. unfold evaluate, evaluate_try. cbv zeta. rewrite Hc. simpl bind at 1.
  unfold response_text. simpl bind at 1. rewrite Hl. simpl bind at 1. simpl py_iter.
  simpl bind at 1. destruct (evaluate_loop zero [] _); reflexivity.
Qed.

(** Every successful answer of [/evaluate] comes out of the loop. *)
Lemma evaluate_ok_loop (call : client) (sub : Submission.t) (r : ScoreResponse.t) :
  evaluate call sub = HOk r ->
  exists entries, evaluate_loop zero [] (combine entries (Submission.items sub))
                  = Ok (ScoreResponse.total_score r, ScoreResponse.details r).
Proof.
  unfold evaluate, evaluate_try. cbv zeta.
  destruct (call gemini_model _) as [resp|e]; simpl; [|discriminate].
  destruct (response_text resp) as [text|e]; simpl; [|discriminate].
  destruct (loads _) as [raw|e]; simpl; [|discriminate].
  destruct (py_iter raw) as [entries|e]; simpl; [|discriminate].
  destruct (evaluate_loop zero [] _) as [[t ds]|e] eqn:Hl; simpl; [|discriminate].
  intros H. inversion H; subst. simpl. eauto.
Qed.

(** C1 (amended).  When the model's text parses to a JSON array of the
    submission's length, [/evaluate] succeeds exactly when every entry
    converts against the item at its position (an object whose [score] is
    accepted by [float] and whose [question] and [feedback], when present,
    are strings); the details it then returns carry the submission's
    question ids, one per item, in input order. *)
Theorem evaluate_one_detail_per_item (call : client) (sub : Submission.t) (t : pystr)
  (l : list json) :
  call gemini_model (build_evaluation_prompt (Submission.items sub)) = Ok (Some t) ->
  loads (strip_fences_first_last t) = Ok (JArr l) ->
  List.length l = List.length (Submission.items sub) ->
  ((exists r, evaluate call sub = HOk r) <->
     Forall2 (fun e it => exists d, score_detail e it = Ok d) l (Submission.items sub)) /\
  (forall r, evaluate call sub = HOk r ->
     map ScoreDetail.question_id (ScoreResponse.details r)
     = map QuestionItem.question_id (Submission.items sub)).
Proof.
  intros Hc Hl Hlen. rewrite (evaluate_on_array call sub t l Hc Hl). split.
  - rewrite <- (Forall_combine_Forall2 (fun e it => exists d, score_detail e it = Ok d) _ _ Hlen).
    cbv beta. rewrite <- (evaluate_loop_succeeds zero []).
    split.
    + intros [r Hr]. destruct (evaluate_loop zero [] _) eqn:E; [eauto|discriminate].
    + intros [res Hres]. rewrite Hres. eauto.
  - intros r Hr. destruct (evaluate_loop zero [] _) as [[tt ds]|e] eqn:E; [|discriminate].
    inversion Hr; subst; simpl. apply evaluate_loop_spec in E.
    destruct E as (fresh & Hf & -> & _). simpl.
    rewrite (Forall2_ids _ _ Hf), map_snd_combine, Hlen, firstn_all. reflexivity.
Qed.

(** Two empty objects answering a two-item submission. *)
Lemma evaluate_one_detail_per_item_witness :
  let t := ustr "[{}, {}]" in
  (answer t gemini_model (build_evaluation_prompt (Submission.items submission_2)) = Ok (Some t) /\
   loads (strip_fences_first_last t) = Ok (JArr [JObj []; JObj []]) /\
   List.length [JObj []; JObj []] = List.length (Submission.items submission_2)) /\
  exists r, evaluate (answer t) submission_2 = HOk r /\
    map ScoreDetail.question_id (ScoreResponse.details r) = [ustr "q1"; ustr "q2"].
Proof.
  intros t.
  assert (H1 : answer t gemini_model (build_evaluation_prompt (Submission.items submission_2))
               = Ok (Some t)) by reflexivity.
  assert (H2 : loads (strip_fences_first_last t) = Ok (JArr [JObj []; JObj []]))
    by (vm_compute; reflexivity).
  assert (H3 : List.length [JObj []; JObj []] = List.length (Submission.items submission_2))
    by reflexivity.
  destruct (evaluate_one_detail_per_item (answer t) submission_2 t _ H1 H2 H3) as [Hiff Hids].
  assert (Hex : exists r, evaluate (answer t) submission_2 = HOk r).
  { apply Hiff. repeat (constructor; [eexists; reflexivity|]). constructor. }
  destruct Hex as [r Hr].
  split; [auto|]. exists r. split; [exact Hr|]. rewrite (Hids r Hr). reflexivity.
Defined.

(** C1 (counterexample).  The model answers a one-item submission with the
    one-element array [[1]]: the lengths agree, yet [/evaluate] fails with
    an internal error, since [1] has no [get]. *)
Lemma evaluate_one_detail_per_item_fails :
  loads (strip_fences_first_last (ustr "[1]")) = Ok (JArr [JInt 1]) /\
  List.length (Submission.items submission_1) = 1 /\
  evaluate (answer (ustr "[1]")) submission_1
  = HError 500 (ustr "'int' object has no attribute 'get'").
Proof. split; [|split]; vm_compute; reflexivity. Qed.

(** C2 (amended).  When the model's text parses to a JSON array, whatever
    its length, [/evaluate] pairs entries with items up to the shorter of
    the two: it succeeds exactly when every paired entry converts (the
    unpaired ones are never looked at), and then returns
    min(entries, items) details carrying the ids of the first items, in
    order. *)
Theorem evaluate_truncates_to_shorter (call : client) (sub : Submission.t) (t : pystr)
  (l : list json) :
  call gemini_model (build_evaluation_prompt (Submission.items sub)) = Ok (Some t) ->
  loads (strip_fences_first_last t) = Ok (JArr l) ->
  ((exists r, evaluate call sub = HOk r) <->
     Forall (fun p => exists d, score_detail (fst p) (snd p) = Ok d)
       (combine l (Submission.items sub))) /\
  (forall r, evaluate call sub = HOk r ->
     List.length (ScoreResponse.details r)
     = Nat.min (List.length l) (List.length (Submission.items sub)) /\
     map ScoreDetail.question_id (ScoreResponse.details r)
     = map QuestionItem.question_id (firstn (List.length l) (Submission.items sub))).
Proof.
  intros Hc Hl. rewrite (evaluate_on_array call sub t l Hc Hl). split.
  - rewrite <- (evaluate_loop_succeeds zero []).
    split.
    + intros [r Hr]. destruct (evaluate_loop zero [] _) eqn:E; [eauto|discriminate].
    + intros [res Hres]. rewrite Hres. eauto.
  - intros r Hr. destruct (evaluate_loop zero [] _) as [[tt ds]|e] eqn:E; [|discriminate].
    inversion Hr; subst; simpl. apply evaluate_loop_spec in E.
    destruct E as (fresh & Hf & -> & _). simpl. split.
    + rewrite <- (Forall2_length Hf). apply length_combine.
    + rewrite (Forall2_ids _ _ Hf), map_snd_combine. reflexivity.
Qed.

(** Three entries for two items: the third entry, not even an object, is
    dropped. *)
Lemma evaluate_truncates_to_shorter_witness :
  let t := ustr "[{}, {}, 7]" in
  (answer t gemini_model (build_evaluation_prompt (Submission.items submission_2)) = Ok (Some t) /\
   loads (strip_fences_first_last t) = Ok (JArr [JObj []; JObj []; JInt 7])) /\
  exists r, evaluate (answer t) submission_2 = HOk r /\
    List.length (ScoreResponse.details r) = 2 /\
    map ScoreDetail.question_id (ScoreResponse.details r) = [ustr "q1"; ustr "q2"].
Proof.
  intros t.
  assert (H1 : answer t gemini_model (build_evaluation_prompt (Submission.items submission_2))
               = Ok (Some t)) by reflexivity.
  assert (H2 : loads (strip_fences_first_last t) = Ok (JArr [JObj []; JObj []; JInt 7]))
    by (vm_compute; reflexivity).
  destruct (evaluate_truncates_to_shorter (answer t) submission_2 t _ H1 H2) as [Hiff Hres].
  assert (Hex : exists r, evaluate (answer t) submission_2 = HOk r).
  { apply Hiff. simpl. repeat (constructor; [eexists; reflexivity|]). constructor. }
  destruct Hex as [r Hr].
  split; [auto|]. exists r. split; [exact Hr|].
  destruct (Hres r Hr) as [Hlen Hids]. rewrite Hlen, Hids. split; reflexivity.
Defined.

(** C2 (counterexample).  The one-element array [[1]] against a two-item
    submission: the lengths differ and [/evaluate] reports an error. *)
Lemma evaluate_truncates_to_shorter_fails :
  loads (strip_fences_first_last (ustr "[1]")) = Ok (JArr [JInt 1]) /\
  List.length (Submission.items submission_2) = 2 /\
  evaluate (answer (ustr "[1]")) submission_2
  = HError 500 (ustr "'int' object has no attribute 'get'").
Proof. split; [|split]; vm_compute; reflexivity. Qed.

(** C10.  In every successful answer of [/evaluate], [total_score] is the
    left-to-right floating-point sum of the details' scores, starting from
    [0.0]; so it is [0.0] when there are no details. *)
Theorem evaluate_total_is_sum (call : client) (sub : Submission.t) (r : ScoreResponse.t) :
  evaluate call sub = HOk r ->
  ScoreResponse.total_score r = sum_scores (ScoreResponse.details r) /\
  (ScoreResponse.details r = [] -> ScoreResponse.total_score r = zero).
Proof.
  intros H. destruct (evaluate_ok_loop call sub r H) as [entries E].
  apply evaluate_loop_spec in E. destruct E as (fresh & _ & Hd & Ht).
  simpl in Hd. rewrite Hd, Ht. unfold sum_scores. split; [reflexivity|].
  intros ->. reflexivity.
Qed.

(** The fenced two-entry answer: the total [9.5] is [7 + 2.5]. *)
Lemma evaluate_total_is_sum_witness :
  exists r, evaluate (answer model_answer_2) submission_2 = HOk r /\
    ScoreResponse.total_score r = sum_scores (ScoreResponse.details r) /\
    ScoreResponse.total_score r = 9.5%float.
Proof.
  eexists. split; [exact evaluate_two_items|].
  split; [exact (proj1 (evaluate_total_is_sum _ _ _ evaluate_two_items))|reflexivity].
Defined.

(** C5.  An object entry of the model's array, whose [score] (when
    present) is accepted by [float] and whose [question] and [feedback]
    (when present) are strings, always gives a detail; a missing [score]
    gives [0.0], a missing [correct] gives [false], a missing [feedback] or
    [question] gives the empty string. *)
Theorem score_detail_defaults (kvs : list (pystr * json)) (item : QuestionItem.t) :
  (forall s, lookup (ustr "score") kvs = Some s -> exists f, py_float s = Ok f) ->
  (forall q, lookup (ustr "question") kvs = Some q -> exists x, q = JStr x) ->
  (forall q, lookup (ustr "feedback") kvs = Some q -> exists x, q = JStr x) ->
  exists d, score_detail (JObj kvs) item = Ok d /\
    ScoreDetail.question_id d = QuestionItem.question_id item /\
    (lookup (ustr "score") kvs = None -> ScoreDetail.score d = zero) /\
    (lookup (ustr "correct") kvs = None -> ScoreDetail.correct d = false) /\
    (lookup (ustr "feedback") kvs = None -> ScoreDetail.feedback d = []) /\
    (lookup (ustr "question") kvs = None -> ScoreDetail.question d = []).
Proof.
  intros Hs Hq Hf.
  assert (HS : exists sc,
    py_float (match lookup (ustr "score") kvs with Some v => v | None => JInt 0 end) = Ok sc /\
    (lookup (ustr "score") kvs = None -> sc = zero)).
  { destruct (lookup (ustr "score") kvs) as [v|] eqn:E.
    - destruct (Hs v eq_refl) as [f Hv]. exists f. split; [exact Hv|discriminate].
    - exists zero. split; [vm_compute; reflexivity|reflexivity]. }
  assert (HQ : exists x,
    match lookup (ustr "question") kvs with Some v => v | None => JStr [] end = JStr x /\
    (lookup (ustr "question") kvs = None -> x = [])).
  { destruct (lookup (ustr "question") kvs) as [v|] eqn:E.
    - destruct (Hq v eq_refl) as [x Hv]. exists x. split; [exact Hv|discriminate].
    - exists []. split; reflexivity. }
  assert (HF : exists x,
    match lookup (ustr "feedback") kvs with Some v => v | None => JStr [] end = JStr x /\
    (lookup (ustr "feedback") kvs = None -> x = [])).
  { destruct (lookup (ustr "feedback") kvs) as [v|] eqn:E.
    - destruct (Hf v eq_refl) as [x Hv]. exists x. split; [exact Hv|discriminate].
    - exists []. split; reflexivity. }
  destruct HS as (sc & Hsc & Hsc0). destruct HQ as (qx & Hqx & Hqx0).
  destruct HF as (fx & Hfx & Hfx0).
  unfold score_detail. cbn [py_get bind]. rewrite Hsc. cbn [bind].
  rewrite Hqx, Hfx. cbn [bind validate_str].
  eexists. split; [reflexivity|]. cbn [ScoreDetail.question_id ScoreDetail.score
    ScoreDetail.correct ScoreDetail.feedback ScoreDetail.question].
  split; [reflexivity|]. split; [exact Hsc0|]. split; [|split; [exact Hfx0|exact Hqx0]].
  intros Hc. rewrite Hc. reflexivity.
Qed.

(** An empty object: every field takes its default. *)
Lemma score_detail_defaults_witness :
  exists d, score_detail (JObj []) item_q1 = Ok d /\
    ScoreDetail.question_id d = ustr "q1" /\ ScoreDetail.score d = zero /\
    ScoreDetail.correct d = false /\ ScoreDetail.feedback d = [] /\
    ScoreDetail.question d = [].
Proof.
  assert (H1 : forall s, lookup (ustr "score") [] = Some s -> exists f, py_float s = Ok f)
    by (intros s H; discriminate).
  assert (H2 : forall q, lookup (ustr "question") [] = Some q -> exists x, q = JStr x)
    by (intros q H; discriminate).
  assert (H3 : forall q, lookup (ustr "feedback") [] = Some q -> exists x, q = JStr x)
    by (intros q H; discriminate).
  destruct (score_detail_defaults [] item_q1 H1 H2 H3) as (d & Hd & Hid & Hs & Hc & Hf & Hq).
  exists d. split; [exact Hd|]. split; [exact Hid|].
  split; [exact (Hs eq_refl)|]. split; [exact (Hc eq_refl)|].
  split; [exact (Hf eq_refl)|exact (Hq eq_refl)].
Defined.

(** [/evaluate] once the model's text has parsed, whatever its shape. *)
Lemma evaluate_on_value (call : client) (sub : Submission.t) (t : pystr) (v : json) :
  call gemini_model (build_evaluation_prompt (Submission.items sub)) = Ok (Some t) ->
  loads (strip_fences_first_last t) = Ok v ->
  evaluate call sub =
  match py_iter v with
  | Ok entries =>
      match evaluate_loop zero [] (combine entries (Submission.items sub)) with
      | Ok res => HOk {| ScoreResponse.total_score := fst res; ScoreResponse.details := snd res |}
      | Raise e => HError 500 (str_exn e)
      end
  | Raise e => HError 500 (str_exn e)
  end.
Proof.
  intros Hc Hl. unfold evaluate, evaluate_try. cbv zeta. rewrite Hc. cbn [bind response_text].
  rewrite Hl. cbn [bind]. destruct (py_iter v); cbn [bind]; [|reflexivity].
  destruct (evaluate_loop zero [] _); reflexivity.
Qed.

Lemma validate_field (kvs : list (pystr * json)) (k : string) (s : pystr) :
  validate_str "SWOTResponse" (match lookup (ustr k) kvs with Some v => v | None => JStr [] end)
  = Ok s <-> field_value kvs k s.
Proof.
  unfold field_value. destruct (lookup (ustr k) kvs) as [v|].
  - destruct v; cbn [validate_str]; split; intros H;
      try discriminate; try (destruct H as [H|[H _]]; discriminate).
    + injection H as ->. left. reflexivity.
    + destruct H as [H|[H _]]; [injection H as ->; reflexivity|discriminate].
  - cbn [validate_str]. split; intros H.
    + injection H as <-. right. split; reflexivity.
    + destruct H as [H|[_ ->]]; [discriminate|reflexivity].
Qed.

Lemma map_r_Raise_In {A B} (f : A -> result B) (l : list A) (x : A) (e' : exn) :
  In x l -> f x = Raise e' -> exists e, map_r f l = Raise e.
Proof.
  induction l as [|a l IH]; intros Hin Hx; [destruct Hin|].
  cbn [map_r]. destruct Hin as [->|Hin].
  - rewrite Hx. cbn [bind]. eauto.
  - destruct (f a); cbn [bind]; [|eauto].
    destruct (IH Hin Hx) as [e He]. rewrite He. cbn [bind]. eauto.
Qed.

Lemma response_of_try {A} (m : result A) (f : exn -> pystr) :
  (exists r, match m with Ok x => HOk x | Raise e => HError 500 (f e) end = HOk r /\ m = Ok r) \/
  (exists e, match m with Ok x => HOk x | Raise e => HError 500 (f e) end = HError 500 (f e)
             /\ m = Raise e).
Proof. destruct m; [left|right]; eauto. Qed.

(** C3 (amended).  Each of the four model endpoints answers either with the
    value its [try] block returned, or, when that block raised [e], with
    the single internal error 500 whose detail is [str(e)], prefixed with
    ["Gemini Error: "] on [/generate-qa] and ["Gemini error: "] on
    [/generate-alternatives].  Among the failures so reported: text that is
    not valid JSON once its fences are stripped (all four endpoints); on
    [/generate-alternatives], a value that is not an array of exactly three
    elements, or an element failing the [AlternativeQuestion] schema; on
    [/generate-qa], the empty list, a value (or first list element) that is
    not an object with a [questions] key, or a question entry failing the
    [GeneratedQuestion] schema; on [/swot], a value that is not an object,
    or one of the four fields present but not a string; on [/evaluate], a
    paired entry that does not convert to a [ScoreDetail], so that no
    partial list of details is returned.  Some misshapen outputs are not
    failures: [/evaluate] answers an empty object or an empty string with a
    success without details, and [/generate-qa] takes an empty string or an
    empty object as the [questions] value, giving no questions. *)
Theorem endpoints_report_detected_failures (call : client) :
  (* a single error carrying str(e), or the value of the try block *)
  (forall sub,
     let m := evaluate_try call sub (build_evaluation_prompt (Submission.items sub)) in
     (exists r, evaluate call sub = HOk r /\ m = Ok r) \/
     (exists e, evaluate call sub = HError 500 (str_exn e) /\ m = Raise e)) /\
  (forall sub,
     let m := swot_analysis_try call (build_swot_prompt (Submission.items sub)) in
     (exists r, swot_analysis call sub = HOk r /\ m = Ok r) \/
     (exists e, swot_analysis call sub = HError 500 (str_exn e) /\ m = Raise e)) /\
  (forall req,
     let m := generate_questions_try call (build_question_generation_prompt req) in
     (exists r, generate_questions call req = HOk r /\ m = Ok r) \/
     (exists e, generate_questions call req = HError 500 (ustr "Gemini Error: " ++ str_exn e)
                /\ m = Raise e)) /\
  (forall req,
     let m := generate_alternatives_try call (build_alternatives_prompt req) in
     (exists r, generate_alternatives call req = HOk r /\ m = Ok r) \/
     (exists e, generate_alternatives call req = HError 500 (ustr "Gemini error: " ++ str_exn e)
                /\ m = Raise e)) /\
  (* malformed JSON *)
  (forall sub t e, call gemini_model (build_evaluation_prompt (Submission.items sub)) = Ok (Some t) ->
     loads (strip_fences_first_last t) = Raise e ->
     evaluate call sub = HError 500 (str_exn e)) /\
  (forall sub t e, call gemini_model (build_swot_prompt (Submission.items sub)) = Ok (Some t) ->
     loads (strip_fences_first_last t) = Raise e ->
     swot_analysis call sub = HError 500 (str_exn e)) /\
  (forall req t e, call gemini_model (build_question_generation_prompt req) = Ok (Some t) ->
     loads (strip_fence_lines t) = Raise e ->
     generate_questions call req = HError 500 (ustr "Gemini Error: " ++ str_exn e)) /\
  (forall req t e, call gemini_model (build_alternatives_prompt req) = Ok (Some t) ->
     loads (strip_fence_lines t) = Raise e ->
     generate_alternatives call req = HError 500 (ustr "Gemini error: " ++ str_exn e)) /\
  (* /generate-alternatives: cardinality and schema *)
  (forall req t v, call gemini_model (build_alternatives_prompt req) = Ok (Some t) ->
     loads (strip_fence_lines t) = Ok v ->
     (forall l, v = JArr l -> List.length l <> 3) ->
     generate_alternatives call req
     = HError 500 (ustr "Gemini error: " ++ str_exn (ValueError length_error))) /\
  (forall req t l x e', call gemini_model (build_alternatives_prompt req) = Ok (Some t) ->
     loads (strip_fence_lines t) = Ok (JArr l) -> In x l -> alternative_question x = Raise e' ->
     exists e, generate_alternatives call req = HError 500 (ustr "Gemini error: " ++ str_exn e)) /\
  (* /generate-qa: structure and schema *)
  (forall req t, call gemini_model (build_question_generation_prompt req) = Ok (Some t) ->
     loads (strip_fence_lines t) = Ok (JArr []) ->
     generate_questions call req
     = HError 500 (ustr "Gemini Error: 500: " ++ empty_list_detail)) /\
  (forall req t parsed p, call gemini_model (build_question_generation_prompt req) = Ok (Some t) ->
     loads (strip_fence_lines t) = Ok parsed -> first_if_list parsed = Ok p ->
     (forall kvs, p = JObj kvs -> lookup (ustr "questions") kvs = None) ->
     generate_questions call req
     = HError 500 (ustr "Gemini Error: 500: " ++ bad_structure_detail)) /\
  (forall req t parsed kvs qv xs x e',
     call gemini_model (build_question_generation_prompt req) = Ok (Some t) ->
     loads (strip_fence_lines t) = Ok parsed -> first_if_list parsed = Ok (JObj kvs) ->
     lookup (ustr "questions") kvs = Some qv -> py_iter qv = Ok xs ->
     In x xs -> generated_question x = Raise e' ->
     exists e, generate_questions call req = HError 500 (ustr "Gemini Error: " ++ str_exn e)) /\
  (* /swot: structure and schema *)
  (forall sub t v, call gemini_model (build_swot_prompt (Submission.items sub)) = Ok (Some t) ->
     loads (strip_fences_first_last t) = Ok v -> (forall kvs, v <> JObj kvs) ->
     swot_analysis call sub
     = HError 500 (ustr "'" ++ type_name v ++ ustr "' object has no attribute 'get'")) /\
  (forall sub t kvs k x, call gemini_model (build_swot_prompt (Submission.items sub)) = Ok (Some t) ->
     loads (strip_fences_first_last t) = Ok (JObj kvs) ->
     In k ["strengths"; "weaknesses"; "opportunities"; "threats"]%string ->
     lookup (ustr k) kvs = Some x -> (forall s, x <> JStr s) ->
     exists e, swot_analysis call sub = HError 500 (str_exn e)) /\
  (* /evaluate: entries *)
  (forall sub t l x it, call gemini_model (build_evaluation_prompt (Submission.items sub)) = Ok (Some t) ->
     loads (strip_fences_first_last t) = Ok (JArr l) ->
     In (x, it) (combine l (Submission.items sub)) -> (forall d, score_detail x it <> Ok d) ->
     exists e, evaluate call sub = HError 500 (str_exn e)) /\
  (* misshapen outputs that are not failures *)
  (forall sub t v, call gemini_model (build_evaluation_prompt (Submission.items sub)) = Ok (Some t) ->
     loads (strip_fences_first_last t) = Ok v -> v = JObj [] \/ v = JStr [] ->
     evaluate call sub
     = HOk {| ScoreResponse.total_score := zero; ScoreResponse.details := [] |}) /\
  (forall req t parsed kvs, call gemini_model (build_question_generation_prompt req) = Ok (Some t) ->
     loads (strip_fence_lines t) = Ok parsed -> first_if_list parsed = Ok (JObj kvs) ->
     lookup (ustr "questions") kvs = Some (JStr []) \/ lookup (ustr "questions") kvs = Some (JObj []) ->
     generate_questions call req = HOk {| QuestionGenerationResponse.questions := [] |}).
Proof.
  split; [intros sub; apply response_of_try|].
  split; [intros sub; apply response_of_try|].
  split; [intros req; apply response_of_try|].
  split; [intros req; apply response_of_try|].
  split.
  { intros sub t e Hc Hl. unfold evaluate, evaluate_try. cbv zeta.
    rewrite Hc. cbn [bind response_text]. rewrite Hl. reflexivity. }
  split.
  { intros sub t e Hc Hl. unfold swot_analysis, swot_analysis_try. cbv zeta.
    rewrite Hc. cbn [bind response_text]. rewrite Hl. reflexivity. }
  split.
  { intros req t e Hc Hl. unfold generate_questions, generate_questions_try. cbv zeta.
    rewrite Hc. cbn [bind response_text]. rewrite Hl. reflexivity. }
  split.
  { intros req t e Hc Hl. unfold generate_alternatives, generate_alternatives_try. cbv zeta.
    rewrite Hc. cbn [bind response_text]. rewrite Hl. reflexivity. }
  split.
  { intros req t v Hc Hl Hlen. unfold generate_alternatives, generate_alternatives_try. cbv zeta.
    rewrite Hc. cbn [bind response_text]. rewrite Hl. cbn [bind].
    destruct v as [| | | | |l|]; try reflexivity.
    specialize (Hlen l eq_refl). apply Nat.eqb_neq in Hlen. rewrite Hlen. reflexivity. }
  split.
  { intros req t l x e' Hc Hl Hin Hx. unfold generate_alternatives, generate_alternatives_try.
    cbv zeta. rewrite Hc. cbn [bind response_text]. rewrite Hl. cbn [bind].
    destruct (Nat.eqb (List.length l) 3); [|eauto].
    destruct (map_r_Raise_In alternative_question l x e' Hin Hx) as [e He].
    rewrite He. eauto. }
  split.
  { intros req t Hc Hl. unfold generate_questions, generate_questions_try. cbv zeta.
    rewrite Hc. cbn [bind response_text]. rewrite Hl. reflexivity. }
  split.
  { intros req t parsed p Hc Hl Hf Hq. unfold generate_questions, generate_questions_try. cbv zeta.
    rewrite Hc. cbn [bind response_text]. rewrite Hl. cbn [bind]. rewrite Hf. cbn [bind].
    destruct p as [| | | | | |kvs]; try reflexivity.
    rewrite (Hq kvs eq_refl). reflexivity. }
  split.
  { intros req t parsed kvs qv xs x e' Hc Hl Hf Hq Hi Hin Hx.
    unfold generate_questions, generate_questions_try. cbv zeta.
    rewrite Hc. cbn [bind response_text]. rewrite Hl. cbn [bind]. rewrite Hf. cbn [bind].
    rewrite Hq, Hi. cbn [bind].
    destruct (map_r_Raise_In generated_question xs x e' Hin Hx) as [e He].
    rewrite He. cbn [bind]. eauto. }
  split.
  { intros sub t v Hc Hl Hn. unfold swot_analysis, swot_analysis_try. cbv zeta.
    rewrite Hc. cbn [bind response_text]. rewrite Hl. cbn [bind].
    destruct v as [| | | | | |kvs]; try reflexivity.
    exfalso. exact (Hn kvs eq_refl). }
  split.
  { intros sub t kvs k x Hc Hl Hk Hx Hns. unfold swot_analysis, swot_analysis_try. cbv zeta.
    rewrite Hc. cbn [bind response_text]. rewrite Hl. cbn [py_get bind].
    match goal with
    | |- exists e, match ?m with Ok _ => _ | Raise _ => _ end = _ =>
        destruct m as [r|e] eqn:E; [exfalso|eauto]
    end.
    apply bind_Ok in E. destruct E as (s & Hs & E).
    apply bind_Ok in E. destruct E as (w & Hw & E).
    apply bind_Ok in E. destruct E as (o & Ho & E).
    apply bind_Ok in E. destruct E as (th & Hth & _).
    apply validate_field in Hs, Hw, Ho, Hth. unfold field_value in Hs, Hw, Ho, Hth.
    destruct Hk as [<-|[<-|[<-|[<-|[]]]]];
      [destruct Hs as [H|[H _]] | destruct Hw as [H|[H _]] | destruct Ho as [H|[H _]]
      | destruct Hth as [H|[H _]]]; rewrite Hx in H; try discriminate;
      injection H as ->; exact (Hns _ eq_refl). }
  split.
  { intros sub t l x it Hc Hl Hin Hx. rewrite (evaluate_on_array call sub t l Hc Hl).
    destruct (evaluate_loop zero [] _) as [res|e] eqn:E; [exfalso|eauto].
    assert (Hall : exists res, evaluate_loop zero [] (combine l (Submission.items sub)) = Ok res)
      by eauto.
    apply evaluate_loop_succeeds in Hall. rewrite Forall_forall in Hall.
    destruct (Hall _ Hin) as [d Hd]. exact (Hx d Hd). }
  split.
  { intros sub t v Hc Hl Hv. rewrite (evaluate_on_value call sub t v Hc Hl).
    destruct Hv as [-> | ->]; reflexivity. }
  { intros req t parsed kvs Hc Hl Hf Hq. unfold generate_questions, generate_questions_try.
    cbv zeta. rewrite Hc. cbn [bind response_text]. rewrite Hl. cbn [bind]. rewrite Hf.
    cbn [bind]. destruct Hq as [Hq|Hq]; rewrite Hq; reflexivity. }
Qed.

(** The truncated text [[1,] sent to each endpoint, and a two-element
    array sent to [/generate-alternatives]. *)
Lemma endpoints_report_detected_failures_witness :
  let t := ustr "[1," in
  exists e, loads (strip_fences_first_last t) = Raise e /\
    loads (strip_fence_lines t) = Raise e /\
    evaluate (answer t) submission_1 = HError 500 (str_exn e) /\
    swot_analysis (answer t) submission_1 = HError 500 (str_exn e) /\
    generate_questions (answer t) qg_request = HError 500 (ustr "Gemini Error: " ++ str_exn e) /\
    generate_alternatives (answer t) alt_request = HError 500 (ustr "Gemini error: " ++ str_exn e) /\
    generate_alternatives (answer (ustr "[1, 2]")) alt_request
    = HError 500 (ustr "Gemini error: " ++ str_exn (ValueError length_error)).
Proof.
  intros t.
  destruct (loads (strip_fences_first_last t)) as [v|e] eqn:E1;
    [vm_compute in E1; discriminate|].
  assert (E2 : loads (strip_fence_lines t) = Raise e)
    by (rewrite <- E1; vm_compute; reflexivity).
  destruct (endpoints_report_detected_failures (answer t))
    as (_ & _ & _ & _ & A & B & C & D & _).
  destruct (endpoints_report_detected_failures (answer (ustr "[1, 2]")))
    as (_ & _ & _ & _ & _ & _ & _ & _ & F & _).
  exists e. split; [reflexivity|]. split; [exact E2|].
  split; [exact (A submission_1 t e eq_refl E1)|].
  split; [exact (B submission_1 t e eq_refl E1)|].
  split; [exact (C qg_request t e eq_refl E2)|].
  split; [exact (D alt_request t e eq_refl E2)|].
  apply (F alt_request (ustr "[1, 2]") (JArr [JInt 1; JInt 2]) eq_refl);
    [vm_compute; reflexivity|].
  intros l Hl. injection Hl as <-. discriminate.
Defined.

(** C3 (counterexample).  Misshapen outputs that are not reported: the
    empty object in place of the array of results gives [/evaluate] a
    successful response without details for a one-item submission, and an
    empty object as the [questions] value gives [/generate-qa] a successful
    response without questions. *)
Lemma endpoints_accept_empty_containers :
  evaluate (answer (ustr "{}")) submission_1
  = HOk {| ScoreResponse.total_score := zero; ScoreResponse.details := [] |} /\
  generate_questions (answer (ustr "{" ++ jq "questions" ++ ustr ": {}}")) qg_request
  = HOk {| QuestionGenerationResponse.questions := [] |}.
Proof. split; vm_compute; reflexivity. Qed.

(** C4.  [/generate-alternatives] succeeds exactly when the model answered
    with a text whose fence-stripped form parses to a JSON array of exactly
    three elements, each of which validates as an [AlternativeQuestion];
    the questions returned are those three, in order.  Every other outcome
    is the internal error 500. *)
Theorem generate_alternatives_exactly_three (call : client) (req : AlternativeRequest.t) :
  (forall qs, generate_alternatives call req = HOk qs <->
     exists t l, call gemini_model (build_alternatives_prompt req) = Ok (Some t) /\
       loads (strip_fence_lines t) = Ok (JArr l) /\ List.length l = 3 /\
       Forall2 (fun j q => alternative_question j = Ok q) l qs) /\
  ((exists qs, generate_alternatives call req = HOk qs) \/
   (exists d, generate_alternatives call req = HError 500 d)).
Proof.
  split.
  - intros qs. unfold generate_alternatives, generate_alternatives_try. cbv zeta.
    split.
    + destruct (call gemini_model _) as [resp|e] eqn:Hc; cbn [bind]; [|discriminate].
      destruct resp as [t|]; cbn [bind response_text]; [|discriminate].
      destruct (loads (strip_fence_lines t)) as [v|e] eqn:Hl; cbn [bind]; [|discriminate].
      destruct v as [| | | | |l|]; try discriminate.
      destruct (Nat.eqb (List.length l) 3) eqn:Hlen; [|discriminate].
      destruct (map_r alternative_question l) as [qs'|e] eqn:Hm; [|discriminate].
      intros H. inversion H; subst. exists t, l.
      split; [first [reflexivity|exact Hc]|]. split; [first [reflexivity|exact Hl]|].
      split; [now apply Nat.eqb_eq|].
      clear -Hm. revert qs Hm. induction l as [|j l IH]; intros qs Hm; simpl in Hm.
      * inversion Hm. constructor.
      * apply bind_Ok in Hm. destruct Hm as (q & Hq & Hm).
        apply bind_Ok in Hm. destruct Hm as (qs' & Hqs & Hm). inversion Hm; subst.
        constructor; [exact Hq|]. apply IH. exact Hqs.
    + intros (t & l & Hc & Hl & Hlen & Hf). rewrite Hc. cbn [bind response_text].
      rewrite Hl. cbn [bind]. rewrite Hlen. cbn [Nat.eqb].
      replace (map_r alternative_question l) with (Ok qs : result (list AlternativeQuestion.t));
        [reflexivity|].
      clear -Hf. induction Hf as [|j q l qs Hq _ IH]; [reflexivity|].
      simpl. rewrite Hq, <- IH. reflexivity.
  - unfold generate_alternatives. cbv zeta.
    destruct (generate_alternatives_try call _); eauto.
Qed.

(** C7 (amended).  Once the model's text parses to [parsed], [/generate-qa]
    answers the empty list with the error ["Gemini Error: 500: Gemini
    returned an empty list"]; for a [dict], or a non-empty list whose first
    element is a [dict], holding the key [questions] with value [qv], it
    succeeds exactly when [qv] is iterable (a list, and also a string or a
    [dict]) and each of its elements gives a [GeneratedQuestion], which are
    then returned in order; without that key, and for every other shape,
    it answers ["Gemini Error: 500: Unexpected Gemini response
    structure"]. *)
Theorem generate_questions_shapes (call : client) (req : QuestionGenerationRequest.t)
  (t : pystr) (parsed : json) :
  call gemini_model (build_question_generation_prompt req) = Ok (Some t) ->
  loads (strip_fence_lines t) = Ok parsed ->
  (parsed = JArr [] ->
     generate_questions call req
     = HError 500 (ustr "Gemini Error: 500: " ++ empty_list_detail)) /\
  (forall kvs, (parsed = JObj kvs \/ exists rest, parsed = JArr (JObj kvs :: rest)) ->
     (forall qv r, lookup (ustr "questions") kvs = Some qv ->
        (generate_questions call req = HOk r <->
         exists xs, py_iter qv = Ok xs /\
           map_r generated_question xs = Ok (QuestionGenerationResponse.questions r))) /\
     (lookup (ustr "questions") kvs = None ->
        generate_questions call req
        = HError 500 (ustr "Gemini Error: 500: " ++ bad_structure_detail))) /\
  ((forall kvs, parsed <> JObj kvs /\ forall rest, parsed <> JArr (JObj kvs :: rest)) ->
     parsed <> JArr [] ->
     generate_questions call req
     = HError 500 (ustr "Gemini Error: 500: " ++ bad_structure_detail)).
Proof.
  intros Hc Hl.
  unfold generate_questions, generate_questions_try. cbv zeta.
  rewrite Hc. cbn [bind response_text]. rewrite Hl. cbn [bind].
  split; [|split].
  - intros ->. reflexivity.
  - intros kvs Hshape.
    assert (Hf : first_if_list parsed = Ok (JObj kvs))
      by (destruct Hshape as [->|[rest ->]]; reflexivity).
    rewrite Hf. cbn [bind]. split.
    + intros qv r Hq. rewrite Hq.
      destruct (py_iter qv) as [xs|e] eqn:Hi; cbn [bind].
      * destruct (map_r generated_question xs) as [qs|e] eqn:Hm; cbn [bind].
        -- split.
           ++ intros H. inversion H; subst. exists xs. split; [reflexivity|exact Hm].
           ++ intros (xs' & Hxs & Hm'). inversion Hxs; subst. rewrite Hm in Hm'.
              destruct r as [rq]. simpl in Hm'. congruence.
        -- split; [discriminate|]. intros (xs' & Hxs & Hm'). inversion Hxs; subst.
           congruence.
      * split; [discriminate|]. intros (xs' & Hxs & _). discriminate.
    + intros Hq. rewrite Hq. reflexivity.
  - intros Hnot Hne.
    destruct parsed as [| | | | |[|x rest]|kvs]; try reflexivity.
    + contradiction.
    + destruct x as [| | | | | |kvs]; try reflexivity.
      destruct (Hnot kvs) as [_ H]. contradiction (H rest eq_refl).
    + destruct (Hnot kvs) as [H _]. contradiction (H eq_refl).
Qed.

(** A list around one [dict] whose [questions] list is empty. *)
Lemma generate_questions_shapes_witness :
  let t := ustr "[{" ++ jq "questions" ++ ustr ": []}]" in
  (answer t gemini_model (build_question_generation_prompt qg_request) = Ok (Some t) /\
   loads (strip_fence_lines t) = Ok (JArr [JObj [(ustr "questions", JArr [])]])) /\
  generate_questions (answer t) qg_request = HOk {| QuestionGenerationResponse.questions := [] |}.
Proof.
  intros t.
  assert (H1 : answer t gemini_model (build_question_generation_prompt qg_request)
               = Ok (Some t)) by reflexivity.
  assert (H2 : loads (strip_fence_lines t) = Ok (JArr [JObj [(ustr "questions", JArr [])]]))
    by (vm_compute; reflexivity).
  destruct (generate_questions_shapes (answer t) qg_request t _ H1 H2) as (_ & B & _).
  destruct (B [(ustr "questions", JArr [])] (or_intror (ex_intro _ [] eq_refl))) as [B1 _].
  split; [split; assumption|].
  apply (B1 (JArr []) {| QuestionGenerationResponse.questions := [] |} eq_refl).
  exists []. split; reflexivity.
Defined.

(** C7 (counterexample).  A [dict] whose [questions] is the empty string,
    not an array, is accepted: [/generate-qa] succeeds with no question. *)
Lemma generate_questions_accepts_string :
  let t := ustr "{" ++ jq "questions" ++ ustr ": " ++ dq ++ dq ++ ustr "}" in
  loads (strip_fence_lines t) = Ok (JObj [(ustr "questions", JStr [])]) /\
  generate_questions (answer t) qg_request
  = HOk {| QuestionGenerationResponse.questions := [] |}.
Proof. split; vm_compute; reflexivity. Qed.

(** The fields of a [QuestionItem] the evaluation and SWOT prompts show. *)
Lemma evaluation_prompt_loop_fields (items1 items2 : list QuestionItem.t) :
  map (fun it => (QuestionItem.question it, QuestionItem.actual_answer it,
                  QuestionItem.expected_answer it)) items1
  = map (fun it => (QuestionItem.question it, QuestionItem.actual_answer it,
                    QuestionItem.expected_answer it)) items2 ->
  forall prompt idx, evaluation_prompt_loop prompt idx items1
                     = evaluation_prompt_loop prompt idx items2.
Proof.
  revert items2. induction items1 as [|a items1 IH]; intros [|b items2] H; simpl in H;
    try discriminate; intros prompt idx; [reflexivity|].
  injection H as Hq Ha He Hr. simpl. rewrite Hq, Ha, He. apply IH. exact Hr.
Qed.

Lemma swot_context_fields (items1 items2 : list QuestionItem.t) :
  map (fun it => (QuestionItem.question it, QuestionItem.actual_answer it,
                  QuestionItem.expected_answer it)) items1
  = map (fun it => (QuestionItem.question it, QuestionItem.actual_answer it,
                    QuestionItem.expected_answer it)) items2 ->
  build_swot_prompt items1 = build_swot_prompt items2.
Proof.
  intros H. unfold build_swot_prompt. f_equal. f_equal.
  revert items2 H. induction items1 as [|a items1 IH]; intros [|b items2] H; simpl in H;
    try discriminate; [reflexivity|].
  injection H as Hq Ha He Hr. cbn [map]. rewrite Hq, Ha, He, (IH items2 Hr). reflexivity.
Qed.

(** C8.  Each prompt builder is a function of the request alone, and of
    only the fields its template interpolates: two question-generation
    requests that agree on the number and type of questions, the topics,
    the subject, the class, the difficulty and the instructions give the
    same prompt; two item lists that agree on every item's question,
    student answer and expected answer give the same evaluation prompt and
    the same SWOT prompt; two alternatives requests that agree on the
    question type, subtopic, difficulty, subject, marks and id give the
    same prompt. *)
Theorem prompt_builders_depend_on_fields :
  (forall r1 r2 : QuestionGenerationRequest.t,
     QuestionGenerationRequest.number_of_questions r1
     = QuestionGenerationRequest.number_of_questions r2 ->
     QuestionGenerationRequest.question_type r1 = QuestionGenerationRequest.question_type r2 ->
     QuestionGenerationRequest.topics r1 = QuestionGenerationRequest.topics r2 ->
     QuestionGenerationRequest.subject r1 = QuestionGenerationRequest.subject r2 ->
     QuestionGenerationRequest.class_ r1 = QuestionGenerationRequest.class_ r2 ->
     QuestionGenerationRequest.difficulty r1 = QuestionGenerationRequest.difficulty r2 ->
     QuestionGenerationRequest.instructions r1 = QuestionGenerationRequest.instructions r2 ->
     build_question_generation_prompt r1 = build_question_generation_prompt r2) /\
  (forall items1 items2 : list QuestionItem.t,
     map (fun it => (QuestionItem.question it, QuestionItem.actual_answer it,
                     QuestionItem.expected_answer it)) items1
     = map (fun it => (QuestionItem.question it, QuestionItem.actual_answer it,
                       QuestionItem.expected_answer it)) items2 ->
     build_evaluation_prompt items1 = build_evaluation_prompt items2 /\
     build_swot_prompt items1 = build_swot_prompt items2) /\
  (forall a1 a2 : AlternativeRequest.t,
     AlternativeRequest.questionType a1 = AlternativeRequest.questionType a2 ->
     AlternativeRequest.subtopic a1 = AlternativeRequest.subtopic a2 ->
     AlternativeRequest.difficulty a1 = AlternativeRequest.difficulty a2 ->
     AlternativeRequest.subject a1 = AlternativeRequest.subject a2 ->
     AlternativeRequest.marks a1 = AlternativeRequest.marks a2 ->
     AlternativeRequest.id a1 = AlternativeRequest.id a2 ->
     build_alternatives_prompt a1 = build_alternatives_prompt a2).
Proof.
  split; [|split].
  - intros r1 r2 Hn Hqt Ht Hs Hc Hd Hi. unfold build_question_generation_prompt.
    rewrite Hn, Hqt, Ht, Hs, Hc, Hd, Hi. reflexivity.
  - intros items1 items2 H. split.
    + unfold build_evaluation_prompt. apply evaluation_prompt_loop_fields. exact H.
    + apply swot_context_fields. exact H.
  - intros a1 a2 Hk Hst Hd Hs Hm Hi. unfold build_alternatives_prompt.
    rewrite Hk, Hst, Hd, Hs, Hm, Hi. reflexivity.
Qed.

(** C9.  [/health-check] answers [{"status": "ok"}] whatever the model
    client, which it never calls. *)
Theorem health_check_ok (call1 call2 : client) :
  health_check call1 = HOk [(ustr "status", ustr "ok")] /\
  health_check call1 = health_check call2.
Proof. split; reflexivity. Qed.

(** ** Further properties of the endpoints *)


(** /evaluate on model outputs that are not arrays: a number, a boolean or
    [null] is not iterable; an empty submission, an empty object or an empty
    string gives the empty response; a non-empty object or string, iterated
    by keys or characters, fails on its first key or character as soon as
    there is an item to pair it with. *)
Theorem evaluate_non_array_output (call : client) (sub : Submission.t) (t : pystr) (v : json) :
  call gemini_model (build_evaluation_prompt (Submission.items sub)) = Ok (Some t) ->
  loads (strip_fences_first_last t) = Ok v ->
  ((v = JNull \/ (exists b, v = JBool b) \/ (exists z, v = JInt z) \/ (exists f, v = JFloat f)) ->
     evaluate call sub = HError 500 (ustr "'" ++ type_name v ++ ustr "' object is not iterable")) /\
  ((Submission.items sub = [] /\ (exists l, v = JArr l)) \/ Submission.items sub = [] /\
   (exists kvs, v = JObj kvs) \/ (Submission.items sub = [] /\ exists s, v = JStr s) \/
   v = JObj [] \/ v = JStr [] ->
     evaluate call sub
     = HOk {| ScoreResponse.total_score := zero; ScoreResponse.details := [] |}) /\
  (Submission.items sub <> [] ->
   (exists kv kvs, v = JObj (kv :: kvs)) \/ (exists c s, v = JStr (c :: s)) ->
     evaluate call sub = HError 500 (ustr "'str' object has no attribute 'get'")).
Proof.
  intros Hc Hl. rewrite (evaluate_on_value call sub t v Hc Hl).
  split; [|split].
  - intros [->|[[b ->]|[[z ->]|[f ->]]]]; reflexivity.
  - intros [[Hi [l ->]]|[[Hi [kvs ->]]|[[Hi [s ->]]|[->| ->]]]];
      try (rewrite Hi; cbn [py_iter]; rewrite combine_nil; reflexivity); reflexivity.
  - intros Hi Hv. destruct (Submission.items sub) as [|it items]; [congruence|].
    destruct Hv as [(kv & kvs & ->)|(c & s & ->)]; reflexivity.
Qed.

Lemma evaluate_non_array_output_witness :
  let t := ustr "{" ++ jq "results" ++ ustr ": []}" in
  (answer t gemini_model (build_evaluation_prompt (Submission.items submission_1)) = Ok (Some t) /\
   loads (strip_fences_first_last t) = Ok (JObj [(ustr "results", JArr [])])) /\
  evaluate (answer t) submission_1 = HError 500 (ustr "'str' object has no attribute 'get'").
Proof.
  intros t.
  assert (H1 : answer t gemini_model (build_evaluation_prompt (Submission.items submission_1))
               = Ok (Some t)) by reflexivity.
  assert (H2 : loads (strip_fences_first_last t) = Ok (JObj [(ustr "results", JArr [])]))
    by (vm_compute; reflexivity).
  split; [split; assumption|].
  destruct (evaluate_non_array_output (answer t) submission_1 t _ H1 H2) as (_ & _ & C).
  apply C; [discriminate|]. left. exists (ustr "results", JArr []), []. reflexivity.
Defined.

Lemma score_detail_same_id (e : json) (it1 it2 : QuestionItem.t) :
  QuestionItem.question_id it1 = QuestionItem.question_id it2 ->
  score_detail e it1 = score_detail e it2.
Proof. intros H. unfold score_detail. rewrite H. reflexivity. Qed.

Lemma evaluate_loop_same_ids (l : list json) (items1 items2 : list QuestionItem.t)
  (total : float) (ds : list ScoreDetail.t) :
  map QuestionItem.question_id items1 = map QuestionItem.question_id items2 ->
  evaluate_loop total ds (combine l items1) = evaluate_loop total ds (combine l items2).
Proof.
  revert items1 items2 total ds.
  induction l as [|e l IH]; intros [|a items1] [|b items2] total ds H; simpl in H;
    try discriminate; try reflexivity.
  injection H as Hab Hr. cbn [combine evaluate_loop].
  rewrite (score_detail_same_id e a b Hab).
  destruct (score_detail e b); cbn [bind]; [apply IH; exact Hr|reflexivity].
Qed.

(** The answer of /evaluate depends on the submission only through the
    model's answer to its prompt and the list of question ids: the
    submitted questions and answers never reach the details (the
    [question] of a detail is the model's). *)
Theorem evaluate_depends_only_on_ids (call1 call2 : client) (sub1 sub2 : Submission.t) :
  call1 gemini_model (build_evaluation_prompt (Submission.items sub1))
  = call2 gemini_model (build_evaluation_prompt (Submission.items sub2)) ->
  map QuestionItem.question_id (Submission.items sub1)
  = map QuestionItem.question_id (Submission.items sub2) ->
  evaluate call1 sub1 = evaluate call2 sub2.
Proof.
  intros Hc Hids. unfold evaluate, evaluate_try. cbv zeta. rewrite Hc.
  destruct (call2 gemini_model _) as [resp|e]; cbn [bind]; [|reflexivity].
  destruct (response_text resp) as [text|e]; cbn [bind]; [|reflexivity].
  destruct (loads _) as [raw|e]; cbn [bind]; [|reflexivity].
  destruct (py_iter raw) as [entries|e]; cbn [bind]; [|reflexivity].
  rewrite (evaluate_loop_same_ids entries _ _ zero [] Hids). reflexivity.
Qed.

(** Two submissions with the same ids and other questions and answers. *)
Lemma evaluate_depends_only_on_ids_witness :
  (answer model_answer_2 gemini_model (build_evaluation_prompt (Submission.items submission_2))
   = answer model_answer_2 gemini_model (build_evaluation_prompt (Submission.items submission_2')) /\
   map QuestionItem.question_id (Submission.items submission_2)
   = map QuestionItem.question_id (Submission.items submission_2')) /\
  evaluate (answer model_answer_2) submission_2 = evaluate (answer model_answer_2) submission_2'.
Proof.
  assert (H1 : answer model_answer_2 gemini_model (build_evaluation_prompt (Submission.items submission_2))
   = answer model_answer_2 gemini_model (build_evaluation_prompt (Submission.items submission_2')))
    by reflexivity.
  assert (H2 : map QuestionItem.question_id (Submission.items submission_2)
   = map QuestionItem.question_id (Submission.items submission_2')) by reflexivity.
  split; [split; assumption|].
  exact (evaluate_depends_only_on_ids _ _ _ _ H1 H2).
Defined.

Lemma score_detail_present_bad (kvs : list (pystr * json)) (it : QuestionItem.t) (d : ScoreDetail.t) :
  (lookup (ustr "score") kvs = Some JNull \/
   (exists q, lookup (ustr "question") kvs = Some q /\ forall s, q <> JStr s) \/
   (exists q, lookup (ustr "feedback") kvs = Some q /\ forall s, q <> JStr s)) ->
  score_detail (JObj kvs) it <> Ok d.
Proof.
  intros Hbad H. unfold score_detail in H. cbn [py_get] in H.
  apply bind_Ok in H. destruct H as (s & Hs & H). apply bind_Ok in H. destruct H as (sc & Hsc & H).
  apply bind_Ok in H. destruct H as (c & _ & H). apply bind_Ok in H. destruct H as (fb & Hfb & H).
  apply bind_Ok in H. destruct H as (qu & Hqu & H). apply bind_Ok in H. destruct H as (q & Hq & H).
  apply bind_Ok in H. destruct H as (f & Hf & _).
  inversion Hs; subst s. inversion Hfb; subst fb. inversion Hqu; subst qu.
  destruct Hbad as [E|[(x & E & Hx)|(x & E & Hx)]]; rewrite E in *.
  - discriminate.
  - destruct x; try discriminate. exact (Hx _ eq_refl).
  - destruct x; try discriminate. exact (Hx _ eq_refl).
Qed.

(** In /evaluate the defaults of [entry.get] apply only to absent keys: a
    paired entry whose [score] is [null], or whose [question] or
    [feedback] is present but not a string, makes the whole request fail
    with the internal error 500. *)
Theorem evaluate_rejects_present_bad_fields (call : client) (sub : Submission.t) (t : pystr)
  (l : list json) (kvs : list (pystr * json)) (it : QuestionItem.t) :
  call gemini_model (build_evaluation_prompt (Submission.items sub)) = Ok (Some t) ->
  loads (strip_fences_first_last t) = Ok (JArr l) ->
  In (JObj kvs, it) (combine l (Submission.items sub)) ->
  (lookup (ustr "score") kvs = Some JNull \/
   (exists q, lookup (ustr "question") kvs = Some q /\ forall s, q <> JStr s) \/
   (exists q, lookup (ustr "feedback") kvs = Some q /\ forall s, q <> JStr s)) ->
  exists detail, evaluate call sub = HError 500 detail.
Proof.
  intros Hc Hl Hin Hbad. rewrite (evaluate_on_array call sub t l Hc Hl).
  destruct (evaluate_loop zero [] _) as [res|e] eqn:E; [|eauto].
  exfalso. assert (Hall : exists res, evaluate_loop zero [] (combine l (Submission.items sub)) = Ok res)
    by eauto.
  apply evaluate_loop_succeeds in Hall. rewrite Forall_forall in Hall.
  destruct (Hall _ Hin) as [d Hd]. exact (score_detail_present_bad kvs it d Hbad Hd).
Qed.

Lemma evaluate_rejects_present_bad_fields_witness :
  let t := ustr "[{" ++ jq "score" ++ ustr ": null}]" in
  (answer t gemini_model (build_evaluation_prompt (Submission.items submission_1)) = Ok (Some t) /\
   loads (strip_fences_first_last t) = Ok (JArr [JObj [(ustr "score", JNull)]]) /\
   In (JObj [(ustr "score", JNull)], item_q1)
      (combine [JObj [(ustr "score", JNull)]] (Submission.items submission_1)) /\
   lookup (ustr "score") [(ustr "score", JNull)] = Some JNull) /\
  exists detail, evaluate (answer t) submission_1 = HError 500 detail.
Proof.
  intros t.
  assert (H1 : answer t gemini_model (build_evaluation_prompt (Submission.items submission_1))
               = Ok (Some t)) by reflexivity.
  assert (H2 : loads (strip_fences_first_last t) = Ok (JArr [JObj [(ustr "score", JNull)]]))
    by (vm_compute; reflexivity).
  assert (H3 : In (JObj [(ustr "score", JNull)], item_q1)
      (combine [JObj [(ustr "score", JNull)]] (Submission.items submission_1)))
    by (left; reflexivity).
  assert (H4 : lookup (ustr "score") [(ustr "score", JNull)] = Some JNull) by reflexivity.
  split; [repeat split; assumption|].
  exact (evaluate_rejects_present_bad_fields _ _ _ _ _ _ H1 H2 H3 (or_introl H4)).
Defined.

Lemma score_detail_correct (kvs : list (pystr * json)) (it : QuestionItem.t) (d : ScoreDetail.t) :
  score_detail (JObj kvs) it = Ok d ->
  ScoreDetail.correct d
  = truthy (match lookup (ustr "correct") kvs with Some v => v | None => JBool false end).
Proof.
  intros H. unfold score_detail in H. cbn [py_get] in H.
  repeat match type of H with
  | bind _ _ = Ok _ => apply bind_Ok in H; destruct H as (? & ? & H)
  end.
  injection H as <-.
  repeat match goal with Hx : Ok _ = Ok _ |- _ => injection Hx as Hx end.
  subst. reflexivity.
Qed.

(** /evaluate reads [correct] with Python's [bool()]: a present value gives
    [false] exactly when it is [null], [false], [0], a zero float, the empty
    string, the empty array or the empty object; any other value, the
    string ["false"] included, gives [true]. *)
Theorem score_detail_correct_truthiness (kvs : list (pystr * json)) (it : QuestionItem.t)
  (d : ScoreDetail.t) (v : json) :
  score_detail (JObj kvs) it = Ok d ->
  lookup (ustr "correct") kvs = Some v ->
  ScoreDetail.correct d = false <->
  (v = JNull \/ v = JBool false \/ v = JInt 0 \/
   (exists f, v = JFloat f /\ PrimFloat.eqb f zero = true) \/
   v = JStr [] \/ v = JArr [] \/ v = JObj []).
Proof.
  intros H Hv. rewrite (score_detail_correct kvs it d H), Hv.
  destruct v as [|b|z|f|s|l|kvs']; cbn [truthy]; split; intros Hb;
    try solve [auto 10 | discriminate];
    try (destruct Hb as [E|[E|[E|[(f' & E & Hf')|[E|[E|E]]]]]]; discriminate).
  - subst b. auto.
  - destruct Hb as [E|[E|[E|[(f' & E & Hf')|[E|[E|E]]]]]]; try discriminate. injection E as ->. reflexivity.
  - destruct (Z.eqb_spec z 0) as [->|Hz]; [auto|discriminate].
  - destruct Hb as [E|[E|[E|[(f' & E & Hf')|[E|[E|E]]]]]]; try discriminate. injection E as ->. reflexivity.
  - right; right; right; left. exists f. split; [reflexivity|].
    destruct (PrimFloat.eqb f zero); [reflexivity|discriminate].
  - destruct Hb as [E|[E|[E|[(f' & E & Hf')|[E|[E|E]]]]]]; try discriminate. injection E as <-. rewrite Hf'. reflexivity.
  - destruct s; [auto 10|discriminate].
  - destruct Hb as [E|[E|[E|[(f' & E & Hf')|[E|[E|E]]]]]]; try discriminate. injection E as ->. reflexivity.
  - destruct l; [auto 10|discriminate].
  - destruct Hb as [E|[E|[E|[(f' & E & Hf')|[E|[E|E]]]]]]; try discriminate. injection E as ->. reflexivity.
  - destruct kvs'; [auto 10|discriminate].
  - destruct Hb as [E|[E|[E|[(f' & E & Hf')|[E|[E|E]]]]]]; try discriminate. injection E as ->. reflexivity.
Qed.

(** The string ["false"] counts as correct. *)
Lemma score_detail_correct_truthiness_witness :
  exists d, score_detail (JObj [(ustr "correct", JStr (ustr "false"))]) item_q1 = Ok d /\
    lookup (ustr "correct") [(ustr "correct", JStr (ustr "false"))] = Some (JStr (ustr "false")) /\
    ScoreDetail.correct d = true.
Proof.
  destruct (score_detail (JObj [(ustr "correct", JStr (ustr "false"))]) item_q1) as [d|e] eqn:E;
    [|vm_compute in E; discriminate].
  assert (Hv : lookup (ustr "correct") [(ustr "correct", JStr (ustr "false"))]
               = Some (JStr (ustr "false"))) by reflexivity.
  exists d. split; [reflexivity|]. split; [exact Hv|].
  destruct (ScoreDetail.correct d) eqn:Ec; [reflexivity|].
  apply (score_detail_correct_truthiness _ _ d _ E Hv) in Ec.
  destruct Ec as [X|[X|[X|[(f & X & _)|[X|[X|X]]]]]]; discriminate.
Defined.


Lemma response_500_HOk {A} (m : result A) (f : exn -> pystr) (r : A) :
  match m with Ok x => HOk x | Raise e => HError 500 (f e) end = HOk r <-> m = Ok r.
Proof.
  destruct m; split; intros H; try discriminate.
  - injection H as ->. reflexivity.
  - injection H as ->. reflexivity.
Qed.

(** /swot once the model's text has parsed to [v]: the response is [r]
    exactly when [v] is an object whose four keys, where present, hold the
    strings of [r], an absent key giving the empty string; a value that is
    not an object fails on its first [.get]. *)
Theorem swot_analysis_fields (call : client) (sub : Submission.t) (t : pystr) (v : json) :
  call gemini_model (build_swot_prompt (Submission.items sub)) = Ok (Some t) ->
  loads (strip_fences_first_last t) = Ok v ->
  (forall r, swot_analysis call sub = HOk r <->
     exists kvs, v = JObj kvs /\
       field_value kvs "strengths" (SWOTResponse.strengths r) /\
       field_value kvs "weaknesses" (SWOTResponse.weaknesses r) /\
       field_value kvs "opportunities" (SWOTResponse.opportunities r) /\
       field_value kvs "threats" (SWOTResponse.threats r)) /\
  ((forall kvs, v <> JObj kvs) ->
   swot_analysis call sub
   = HError 500 (ustr "'" ++ type_name v ++ ustr "' object has no attribute 'get'")).
Proof.
  intros Hc Hl. unfold swot_analysis, swot_analysis_try. cbv zeta. rewrite Hc.
  cbn [bind response_text]. rewrite Hl. cbn [bind]. split.
  - intros r. rewrite response_500_HOk.
    destruct v as [| | | | | |kvs];
      try (cbn [py_get bind]; split; [discriminate|intros (kvs & H & _); discriminate]).
    cbn [py_get bind]. split.
    + intros H.
      apply bind_Ok in H. destruct H as (s & Hs & H).
      apply bind_Ok in H. destruct H as (w & Hw & H).
      apply bind_Ok in H. destruct H as (o & Ho & H).
      apply bind_Ok in H. destruct H as (th & Hth & H).
      injection H as <-. exists kvs. cbn.
      apply validate_field in Hs, Hw, Ho, Hth. auto.
    + intros (kvs' & Hv & Hs & Hw & Ho & Hth). injection Hv as <-.
      apply validate_field in Hs, Hw, Ho, Hth.
      rewrite Hs; cbn [bind]. rewrite Hw; cbn [bind]. rewrite Ho; cbn [bind].
      rewrite Hth; cbn [bind]. destruct r. reflexivity.
  - intros Hn. destruct v as [| | | | | |kvs]; try reflexivity.
    exfalso. exact (Hn kvs eq_refl).
Qed.

(** A model answer without [threats] gives an empty [threats]. *)
Lemma swot_analysis_fields_witness :
  let t := ustr "{" ++ jq "strengths" ++ ustr ": " ++ jq "S" ++ ustr ", " ++ jq "weaknesses"
           ++ ustr ": " ++ jq "W" ++ ustr ", " ++ jq "opportunities" ++ ustr ": " ++ jq "O"
           ++ ustr "}" in
  let v := JObj [(ustr "strengths", JStr (ustr "S")); (ustr "weaknesses", JStr (ustr "W"));
                 (ustr "opportunities", JStr (ustr "O"))] in
  (answer t gemini_model (build_swot_prompt (Submission.items submission_1)) = Ok (Some t) /\
   loads (strip_fences_first_last t) = Ok v) /\
  exists r, swot_analysis (answer t) submission_1 = HOk r /\ SWOTResponse.threats r = [].
Proof.
  intros t v.
  assert (H1 : answer t gemini_model (build_swot_prompt (Submission.items submission_1))
               = Ok (Some t)) by reflexivity.
  assert (H2 : loads (strip_fences_first_last t) = Ok v) by (vm_compute; reflexivity).
  split; [split; assumption|].
  destruct (swot_analysis (answer t) submission_1) as [r|c d] eqn:E;
    [|vm_compute in E; discriminate].
  destruct (swot_analysis_fields (answer t) submission_1 t v H1 H2) as [A _].
  exists r. split; [reflexivity|].
  apply A in E. destruct E as (kvs & Hv & _ & _ & _ & [Ht|[_ Ht]]).
  - unfold v in Hv. injection Hv as <-. discriminate.
  - exact Ht.
Defined.

(** /generate-alternatives and the /generate-qa of app.py read the request
    only to build the prompt: two requests whose prompts get the same
    answer get the same response, so the returned questions are never
    checked against the requested id, type or marks, nor the /generate-qa
    questions against the requested number. *)
Theorem generation_reads_request_only_in_prompt (call1 call2 : client)
  (req1 req2 : AlternativeRequest.t) (qr1 qr2 : QuestionGenerationRequest.t) :
  (call1 gemini_model (build_alternatives_prompt req1)
   = call2 gemini_model (build_alternatives_prompt req2) ->
   generate_alternatives call1 req1 = generate_alternatives call2 req2) /\
  (call1 gemini_model (build_question_generation_prompt qr1)
   = call2 gemini_model (build_question_generation_prompt qr2) ->
   generate_questions call1 qr1 = generate_questions call2 qr2).
Proof.
  split; intros H.
  - unfold generate_alternatives, generate_alternatives_try. cbv zeta. rewrite H. reflexivity.
  - unfold generate_questions, generate_questions_try. cbv zeta. rewrite H. reflexivity.
Qed.

(** Asked for three MCQ alternatives of [Q9] worth 5 marks, the service
    returns three short-answer questions [Q7] worth 2 marks. *)
Lemma generation_reads_request_only_in_prompt_witness :
  let t := ustr "[" ++ alt_json ++ ustr "," ++ alt_json ++ ustr "," ++ alt_json ++ ustr "]" in
  exists qs, generate_alternatives (answer t) alt_request_q9 = HOk qs /\
    map AlternativeQuestion.id qs = [ustr "Q7"; ustr "Q7"; ustr "Q7"] /\
    map AlternativeQuestion.type qs = [SHORT_ANSWER; SHORT_ANSWER; SHORT_ANSWER] /\
    map AlternativeQuestion.marks qs = [2; 2; 2]%Z.
Proof.
  intros t.
  destruct (generation_reads_request_only_in_prompt (answer t) (answer t)
              alt_request_q9 alt_request qg_request qg_request) as [A _].
  rewrite (A eq_refl).
  destruct (generate_alternatives (answer t) alt_request) as [qs|c d] eqn:E;
    [|vm_compute in E; discriminate].
  exists qs. split; [reflexivity|].
  vm_compute in E. injection E as <-. repeat split.
Defined.

Lemma evaluation_prompt_loop_extends (p : pystr) (idx : Z) (items : list QuestionItem.t) :
  exists post, evaluation_prompt_loop p idx items = p ++ post.
Proof.
  revert p idx. induction items as [|it items IH]; intros p idx; cbn [evaluation_prompt_loop].
  - exists []. symmetry. apply app_nil_r.
  - cbv zeta.
    match goal with
    | |- exists _, evaluation_prompt_loop ?q _ _ = _ => destruct (IH q (idx + 1)%Z) as [post E]
    end.
    rewrite E. eexists. rewrite <- !app_assoc. reflexivity.
Qed.

Lemma evaluation_prompt_loop_block (items : list QuestionItem.t) :
  forall (p : pystr) (idx : Z) (i : nat) (it : QuestionItem.t),
  nth_error items i = Some it ->
  exists pre post, evaluation_prompt_loop p idx items
                   = pre ++ eval_block (idx + Z.of_nat i) it ++ post.
Proof.
  induction items as [|it0 items IH]; intros p idx [|i] it H; cbn [nth_error] in H;
    try discriminate; cbn [evaluation_prompt_loop]; cbv zeta.
  - injection H as <-.
    match goal with
    | |- exists _ _, evaluation_prompt_loop ?q _ _ = _ =>
        destruct (evaluation_prompt_loop_extends q (idx + 1)%Z items) as [post E]
    end.
    rewrite E. exists p, post. rewrite Z.add_0_r. unfold eval_block.
    rewrite <- !app_assoc. reflexivity.
  - match goal with
    | |- exists _ _, evaluation_prompt_loop ?q _ _ = _ =>
        destruct (IH q (idx + 1)%Z i it H) as (pre & post & E)
    end.
    rewrite E. exists pre, post. do 3 f_equal. lia.
Qed.

Lemma join_infix (sep x : pystr) (l : list pystr) :
  In x l -> exists pre post, join sep l = pre ++ x ++ post.
Proof.
  induction l as [|a l IH]; intros H; [destruct H|].
  destruct l as [|b l].
  - destruct H as [<-|[]]. exists [], []. cbn. symmetry. apply app_nil_r.
  - destruct H as [<-|H].
    + exists [], (sep ++ join sep (b :: l)). reflexivity.
    + destruct (IH H) as (pre & post & E).
      change (join sep (a :: b :: l)) with (a ++ sep ++ join sep (b :: l)).
      rewrite E. exists (a ++ sep ++ pre), post. rewrite <- !app_assoc. reflexivity.
Qed.

Lemma build_swot_prompt_blocks (items : list QuestionItem.t) :
  build_swot_prompt items = swot_instructions ++ join newline (map swot_block items).
Proof. reflexivity. Qed.

Lemma eg_build_swot_prompt_blocks (items : list QuestionItem.t) :
  EvalGenApi.build_swot_prompt items
  = EvalGenApi.swot_instructions ++ join newline (map swot_block items).
Proof. reflexivity. Qed.

Lemma swot_context_block (items : list QuestionItem.t) (i : nat) (it : QuestionItem.t) :
  nth_error items i = Some it ->
  exists pre post, join newline (map swot_block items) = pre ++ swot_block it ++ post.
Proof.
  intros H. apply join_infix, in_map, (nth_error_In _ _ H).
Qed.

(** Every item of a submission is written into the prompts verbatim: the
    item at position [i] (from 0) appears in the evaluation prompt as the
    block numbered [i + 1] holding its question, student answer and
    expected answer, and in the SWOT prompts of both files as the block
    holding the same three texts. *)
Theorem prompts_embed_items (items : list QuestionItem.t) (i : nat) (it : QuestionItem.t) :
  nth_error items i = Some it ->
  (exists pre post, build_evaluation_prompt items = pre ++ eval_block (Z.of_nat (S i)) it ++ post) /\
  (exists pre post, build_swot_prompt items = pre ++ swot_block it ++ post) /\
  (exists pre post, EvalGenApi.build_swot_prompt items = pre ++ swot_block it ++ post).
Proof.
  intros H. split; [|split].
  - unfold build_evaluation_prompt.
    destruct (evaluation_prompt_loop_block items evaluation_instructions 1 i it H)
      as (pre & post & E).
    exists pre, post. rewrite E. do 3 f_equal. lia.
  - destruct (swot_context_block items i it H) as (pre & post & E).
    rewrite build_swot_prompt_blocks, E. exists (swot_instructions ++ pre), post.
    rewrite <- !app_assoc. reflexivity.
  - destruct (swot_context_block items i it H) as (pre & post & E).
    rewrite eg_build_swot_prompt_blocks, E. exists (EvalGenApi.swot_instructions ++ pre), post.
    rewrite <- !app_assoc. reflexivity.
Qed.

Lemma prompts_embed_items_witness :
  nth_error [item_q1; item_q2] 1 = Some item_q2 /\
  exists pre post, build_evaluation_prompt [item_q1; item_q2]
                   = pre ++ eval_block 2 item_q2 ++ post.
Proof.
  assert (H : nth_error [item_q1; item_q2] 1 = Some item_q2) by reflexivity.
  split; [exact H|].
  destruct (prompts_embed_items [item_q1; item_q2] 1 item_q2 H) as [A _].
  exact A.
Defined.

Lemma eg_generated_question_ok (x : json) (q : GeneratedQuestion.t) :
  EvalGenApi.generated_question x = inr q <->
  exists kvs, x = JObj kvs /\
    lookup (ustr "question") kvs = Some (JStr (GeneratedQuestion.question q)) /\
    lookup (ustr "expected_answer") kvs = Some (JStr (GeneratedQuestion.expected_answer q)).
Proof.
  destruct x as [| | | | | |kvs];
    try (split; [discriminate|intros (kvs & H & _); discriminate]).
  unfold EvalGenApi.generated_question. cbn [EvalGenApi.subscript]. split.
  - destruct (lookup (ustr "question") kvs) as [a|] eqn:Ea; cbn [EvalGenApi.ebind];
      [|discriminate].
    destruct (lookup (ustr "expected_answer") kvs) as [b|] eqn:Eb; cbn [EvalGenApi.ebind];
      [|discriminate].
    destruct a; cbn [validate_str EvalGenApi.lift EvalGenApi.ebind]; try discriminate.
    destruct b; cbn [validate_str EvalGenApi.lift EvalGenApi.ebind]; try discriminate.
    intros H. injection H as <-. exists kvs. cbn. auto.
  - intros (kvs' & Hx & Hq & He). injection Hx as <-. rewrite Hq, He. destruct q. reflexivity.
Qed.

Lemma eg_map_e_ok (xs : list json) (qs : list GeneratedQuestion.t) :
  EvalGenApi.map_e EvalGenApi.generated_question xs = inr qs <->
  Forall2 (fun x q => EvalGenApi.generated_question x = inr q) xs qs.
Proof.
  revert qs. induction xs as [|x xs IH]; intros qs; cbn [EvalGenApi.map_e].
  - split; intros H.
    + injection H as <-. constructor.
    + inversion H. reflexivity.
  - destruct (EvalGenApi.generated_question x) as [e|q] eqn:Eq; cbn [EvalGenApi.ebind].
    + split; [discriminate|]. intros H. inversion H; subst. congruence.
    + destruct (EvalGenApi.map_e EvalGenApi.generated_question xs) as [e|qs'] eqn:Em;
        cbn [EvalGenApi.ebind].
      * split; [discriminate|]. intros H. inversion H as [|? ? ? qs'' Hq Hr]; subst.
        apply IH in Hr. discriminate.
      * split; intros H.
        -- injection H as <-. constructor; [exact Eq|]. apply IH. reflexivity.
        -- inversion H as [|? q' ? qs'' Hq Hr]; subst. rewrite Eq in Hq. injection Hq as <-.
           apply IH in Hr. injection Hr as <-. reflexivity.
Qed.

(** The /generate-qa of eval_gen_api.py once the model's text has parsed to
    [v]: the response is [r] exactly when iterating [v] gives objects that
    each hold string values under [question] and [expected_answer], which
    are the questions of [r], and [r] echoes the title, subject and class of
    the request; an object lacking [question] fails with the [KeyError]
    message ["Gemini Error: 'question'"]. *)
Theorem eg_generate_questions_spec (call : client) (req : QuestionGenerationRequest.t)
  (t : pystr) (v : json) :
  call gemini_model (EvalGenApi.build_question_generation_prompt req) = Ok (Some t) ->
  loads (EvalGenApi.strip_fences_after_strip t) = Ok v ->
  (forall r, EvalGenApi.generate_questions call req = HOk r <->
     exists xs, py_iter v = Ok xs /\
       Forall2 (fun x q => exists kvs, x = JObj kvs /\
                  lookup (ustr "question") kvs = Some (JStr (GeneratedQuestion.question q)) /\
                  lookup (ustr "expected_answer") kvs
                  = Some (JStr (GeneratedQuestion.expected_answer q)))
               xs (EvalGenApi.QuestionGenerationResponse.questions r) /\
       EvalGenApi.QuestionGenerationResponse.test_title r = QuestionGenerationRequest.title req /\
       EvalGenApi.QuestionGenerationResponse.subject r = QuestionGenerationRequest.subject req /\
       EvalGenApi.QuestionGenerationResponse.class_ r = QuestionGenerationRequest.class_ req) /\
  (forall kvs rest, py_iter v = Ok (JObj kvs :: rest) -> lookup (ustr "question") kvs = None ->
   EvalGenApi.generate_questions call req = HError 500 (ustr "Gemini Error: 'question'")).
Proof.
  intros Hc Hl.
  assert (Hf : forall xs qs,
             Forall2 (fun x q => exists kvs, x = JObj kvs /\
                  lookup (ustr "question") kvs = Some (JStr (GeneratedQuestion.question q)) /\
                  lookup (ustr "expected_answer") kvs
                  = Some (JStr (GeneratedQuestion.expected_answer q))) xs qs <->
             EvalGenApi.map_e EvalGenApi.generated_question xs = inr qs).
  { intros xs qs. rewrite eg_map_e_ok. split; apply Forall2_impl;
      intros x q; apply eg_generated_question_ok. }
  unfold EvalGenApi.generate_questions, EvalGenApi.generate_questions_try. cbv zeta.
  rewrite Hc. cbn [EvalGenApi.ebind EvalGenApi.lift response_text]. rewrite Hl.
  cbn [EvalGenApi.ebind EvalGenApi.lift]. split.
  - intros r. destruct (py_iter v) as [xs|e] eqn:Ei; cbn [EvalGenApi.ebind EvalGenApi.lift].
    + destruct (EvalGenApi.map_e EvalGenApi.generated_question xs) as [e|qs] eqn:Em;
        cbn [EvalGenApi.ebind].
      * split; [discriminate|]. intros (xs' & Hx & H & _). injection Hx as <-.
        apply Hf in H. congruence.
      * split.
        -- intros H. injection H as <-. exists xs. cbn. repeat split; auto.
           apply Hf. exact Em.
        -- intros (xs' & Hx & H & Ht & Hs & Hcl). injection Hx as <-.
           apply Hf in H. rewrite Em in H. injection H as ->.
           destruct r. cbn in *. subst. reflexivity.
    + split; [discriminate|]. intros (xs & Hx & _). discriminate.
  - intros kvs rest Hi Hq. rewrite Hi. cbn [EvalGenApi.ebind EvalGenApi.lift EvalGenApi.map_e].
    unfold EvalGenApi.generated_question at 1. cbn [EvalGenApi.subscript]. rewrite Hq.
    reflexivity.
Qed.

(** The request's header fields come back; a question without its answer is
    a [KeyError]. *)
Lemma eg_generate_questions_spec_witness :
  let t := ustr "[{" ++ jq "question" ++ ustr ": " ++ jq "1+1?" ++ ustr ", "
           ++ jq "expected_answer" ++ ustr ": " ++ jq "2" ++ ustr "}]" in
  let v := JArr [JObj [(ustr "question", JStr (ustr "1+1?"));
                       (ustr "expected_answer", JStr (ustr "2"))]] in
  (answer t gemini_model (EvalGenApi.build_question_generation_prompt qg_request) = Ok (Some t) /\
   loads (EvalGenApi.strip_fences_after_strip t) = Ok v) /\
  exists r, EvalGenApi.generate_questions (answer t) qg_request = HOk r /\
    EvalGenApi.QuestionGenerationResponse.test_title r = ustr "Unit test".
Proof.
  intros t v.
  assert (H1 : answer t gemini_model (EvalGenApi.build_question_generation_prompt qg_request)
               = Ok (Some t)) by reflexivity.
  assert (H2 : loads (EvalGenApi.strip_fences_after_strip t) = Ok v) by (vm_compute; reflexivity).
  split; [split; assumption|].
  destruct (EvalGenApi.generate_questions (answer t) qg_request) as [r|c d] eqn:E;
    [|vm_compute in E; discriminate].
  destruct (eg_generate_questions_spec (answer t) qg_request t v H1 H2) as [A _].
  exists r. split; [reflexivity|].
  apply A in E. destruct E as (xs & _ & _ & Ht & _). exact Ht.
Defined.

Lemma lstrip_idem (s : pystr) : lstrip (lstrip s) = lstrip s.
Proof.
  induction s as [|c s IH]; cbn [lstrip]; [reflexivity|].
  destruct (isspace c) eqn:E; [exact IH|]. cbn [lstrip]. rewrite E. reflexivity.
Qed.

Lemma lstrip_head (s : pystr) :
  lstrip s = [] \/ exists c r, lstrip s = c :: r /\ isspace c = false.
Proof.
  induction s as [|c s IH]; cbn [lstrip]; [left; reflexivity|].
  destruct (isspace c) eqn:E; [exact IH|]. right. eauto.
Qed.

Lemma lstrip_rstrip_nonspace (c : N) (r : pystr) :
  isspace c = false -> lstrip (rstrip (c :: r)) = rstrip (c :: r).
Proof.
  intros Hc. unfold rstrip. cbn [rev].
  destruct (lstrip_app_nonspace (rev r) [] c Hc) as [a' Ha]. rewrite Ha.
  rewrite rev_app_distr. cbn. rewrite Hc. reflexivity.
Qed.

Lemma rstrip_idem (s : pystr) : rstrip (rstrip s) = rstrip s.
Proof. unfold rstrip. rewrite rev_involutive, lstrip_idem. reflexivity. Qed.

Lemma strip_idem (s : pystr) : strip (strip s) = strip s.
Proof.
  unfold strip. destruct (lstrip_head s) as [E|(c & r & E & Hc)]; rewrite E.
  - reflexivity.
  - rewrite (lstrip_rstrip_nonspace c r Hc). apply rstrip_idem.
Qed.

(** The normaliser of the eval_gen_api.py /generate-qa is the normaliser of
    app.py's /evaluate applied to the stripped text, [strip] being
    idempotent; it maps a text not starting with a fence (once stripped) to
    the text stripped, and a fenced block of a text [t], whose only line
    boundary is ["\n"], under a tag without line boundaries, to [t]. *)
Theorem eg_normaliser_composes (t : pystr) :
  strip (strip t) = strip t /\
  EvalGenApi.strip_fences_after_strip t = strip_fences_first_last (strip t) /\
  (startswith fence (strip t) = false -> EvalGenApi.strip_fences_after_strip t = strip t) /\
  (forall tag, Forall (fun c => is_linebreak c = false) tag ->
   Forall (fun c => c = 10%N \/ is_linebreak c = false) t ->
   EvalGenApi.strip_fences_after_strip (fenced tag t) = t).
Proof.
  assert (Hc : forall s, EvalGenApi.strip_fences_after_strip s
                         = strip_fences_first_last (strip s)).
  { intros s. unfold EvalGenApi.strip_fences_after_strip, strip_fences_first_last.
    cbv zeta. rewrite strip_idem. reflexivity. }
  split; [apply strip_idem|]. split; [apply Hc|]. split.
  - intros Hs. unfold EvalGenApi.strip_fences_after_strip. cbv zeta. rewrite Hs. reflexivity.
  - intros tag Htag Ht. rewrite Hc, strip_fenced.
    unfold strip_fences_first_last. rewrite strip_fenced.
    unfold fenced at 1. rewrite startswith_fence_app.
    rewrite splitlines_fenced, slice_middle by assumption.
    unfold split_nl. apply join_split_nl.
Qed.

Lemma validate_options_None (v : option json) :
  validate_options v = Ok None <-> v = None \/ v = Some JNull.
Proof.
  destruct v as [[| | | | |l|]|]; cbn [validate_options]; split; intros H;
    try discriminate; auto; try (destruct H as [H|H]; discriminate).
  apply bind_Ok in H. destruct H as (opts & _ & H). discriminate.
Qed.

(** [options] is independent of the question's [type] in the validation of
    an alternative question: an accepted question has no options exactly
    when its object has no [options] key or [null] there, an MCQ included. *)
Theorem alternative_question_options (kvs : list (pystr * json)) (q : AlternativeQuestion.t) :
  alternative_question (JObj kvs) = Ok q ->
  (AlternativeQuestion.options q = None <->
   lookup (ustr "options") kvs = None \/ lookup (ustr "options") kvs = Some JNull).
Proof.
  intros H. unfold alternative_question in H. cbv zeta in H.
  repeat match type of H with
  | bind _ _ = Ok _ => apply bind_Ok in H; destruct H as (? & ? & H)
  end.
  injection H as <-. cbn [AlternativeQuestion.options].
  match goal with
  | Hv : validate_options _ = Ok ?op |- _ =>
      rewrite <- (validate_options_None (lookup (ustr "options") kvs)), Hv
  end.
  split; intros E; [subst; reflexivity|injection E as ->; reflexivity].
Qed.

(** An MCQ alternative without options is accepted. *)
Lemma alternative_question_options_witness :
  let kvs := [(ustr "id", JStr (ustr "Q7")); (ustr "type", JStr (ustr "MCQ"));
              (ustr "text", JStr (ustr "1/2+1/2?")); (ustr "answer_type", JStr (ustr "Text"));
              (ustr "expected_answer", JStr (ustr "1")); (ustr "marks", JInt 2)] in
  exists q, alternative_question (JObj kvs) = Ok q /\
    AlternativeQuestion.type q = MCQ /\ AlternativeQuestion.options q = None.
Proof.
  intros kvs.
  destruct (alternative_question (JObj kvs)) as [q|e] eqn:E; [|vm_compute in E; discriminate].
  exists q. split; [reflexivity|]. split.
  - vm_compute in E. injection E as <-. reflexivity.
  - apply (alternative_question_options kvs q E). left. reflexivity.
Defined.

Lemma generated_question_ok (x : json) (q : GeneratedQuestion.t) :
  generated_question x = Ok q <->
  exists kvs, x = JObj kvs /\
    lookup (ustr "question") kvs = Some (JStr (GeneratedQuestion.question q)) /\
    lookup (ustr "expected_answer") kvs = Some (JStr (GeneratedQuestion.expected_answer q)).
Proof.
  unfold generated_question.
  destruct x as [| | | | | |kvs]; cbn [py_get bind];
    try (split; [discriminate|intros (kvs & H & _); discriminate]).
  split.
  - intros H. apply bind_Ok in H. destruct H as (a & Ha & H).
    apply bind_Ok in H. destruct H as (b & Hb & H). injection H as <-.
    destruct (lookup (ustr "question") kvs) as [[| | | | | |]|] eqn:Eq;
      cbn [validate_str] in Ha; try discriminate.
    destruct (lookup (ustr "expected_answer") kvs) as [[| | | | | |]|] eqn:Ee;
      cbn [validate_str] in Hb; try discriminate.
    injection Ha as <-. injection Hb as <-. exists kvs. cbn. auto.
  - intros (kvs' & Hx & Hq & He). injection Hx as <-. rewrite Hq, He.
    cbn [validate_str bind]. destruct q. reflexivity.
Qed.

(** The /generate-qa of app.py ([q.get]) and that of eval_gen_api.py
    ([q[...]]) accept the same question entries, with the same result: an
    object holding strings under [question] and [expected_answer]; they
    differ only in the error raised for the others. *)
Theorem generated_question_files_agree (x : json) (q : GeneratedQuestion.t) :
  (generated_question x = Ok q <->
   exists kvs, x = JObj kvs /\
     lookup (ustr "question") kvs = Some (JStr (GeneratedQuestion.question q)) /\
     lookup (ustr "expected_answer") kvs = Some (JStr (GeneratedQuestion.expected_answer q))) /\
  (generated_question x = Ok q <-> EvalGenApi.generated_question x = inr q).
Proof.
  split; [apply generated_question_ok|].
  rewrite generated_question_ok, eg_generated_question_ok. reflexivity.
Qed.

(** When the model call raises [e], every endpoint that calls the model
    answers 500 with [str(e)], prefixed by ["Gemini Error: "] in /generate-qa
    and by ["Gemini error: "] in /generate-alternatives; when the model's
    answer has no text, [resp.text] is [None] and the message is the one of
    [None.strip]. *)
Theorem endpoints_on_model_failure (call : client) (sub : Submission.t)
  (qr : QuestionGenerationRequest.t) (req : AlternativeRequest.t) :
  (forall e, (forall p, call gemini_model p = Raise e) ->
   evaluate call sub = HError 500 (str_exn e) /\
   swot_analysis call sub = HError 500 (str_exn e) /\
   EvalGenApi.swot_analysis call sub = HError 500 (str_exn e) /\
   generate_questions call qr = HError 500 (ustr "Gemini Error: " ++ str_exn e) /\
   EvalGenApi.generate_questions call qr = HError 500 (ustr "Gemini Error: " ++ str_exn e) /\
   generate_alternatives call req = HError 500 (ustr "Gemini error: " ++ str_exn e)) /\
  ((forall p, call gemini_model p = Ok None) ->
   evaluate call sub = HError 500 (ustr "'NoneType' object has no attribute 'strip'") /\
   swot_analysis call sub = HError 500 (ustr "'NoneType' object has no attribute 'strip'") /\
   EvalGenApi.swot_analysis call sub
   = HError 500 (ustr "'NoneType' object has no attribute 'strip'") /\
   generate_questions call qr
   = HError 500 (ustr "Gemini Error: 'NoneType' object has no attribute 'strip'") /\
   EvalGenApi.generate_questions call qr
   = HError 500 (ustr "Gemini Error: 'NoneType' object has no attribute 'strip'") /\
   generate_alternatives call req
   = HError 500 (ustr "Gemini error: 'NoneType' object has no attribute 'strip'")).
Proof.
  unfold evaluate, evaluate_try, swot_analysis, EvalGenApi.swot_analysis, swot_analysis_try,
    generate_questions, generate_questions_try, EvalGenApi.generate_questions,
    EvalGenApi.generate_questions_try, generate_alternatives, generate_alternatives_try.
  cbv zeta. split.
  - intros e H. rewrite !H. repeat split.
  - intros H. rewrite !H. repeat split.
Qed.

(** An answer without text. *)
Lemma endpoints_on_model_failure_witness :
  let call : client := fun _ _ => Ok None in
  (forall p, call gemini_model p = Ok None) /\
  generate_alternatives call alt_request
  = HError 500 (ustr "Gemini error: 'NoneType' object has no attribute 'strip'").
Proof.
  intros call.
  assert (H : forall p, call gemini_model p = Ok None) by reflexivity.
  split; [exact H|].
  destruct (endpoints_on_model_failure call submission_1 qg_request alt_request) as [_ B].
  destruct (B H) as (_ & _ & _ & _ & _ & C). exact C.
Defined.

Lemma alt_fields_no_mcq_suffix (x pre : pystr) : x ++ alt_fields <> pre ++ alt_mcq_fields.
Proof.
  intros H. apply app_eq_app in H. destruct H as (l & [[_ H]|[_ H]]).
  - apply (f_equal (@length N)) in H. rewrite length_app in H.
    assert (Hlt : Nat.ltb (length alt_mcq_fields) (length alt_fields) = true)
      by (vm_compute; reflexivity).
    apply Nat.ltb_lt in Hlt. lia.
  - assert (E : firstn (length alt_mcq_fields) (rev alt_fields) = rev alt_mcq_fields).
    { rewrite H, rev_app_distr, firstn_app, length_rev, Nat.sub_diag, firstn_O,
        app_nil_r, <- length_rev, firstn_all. reflexivity. }
    vm_compute in E. discriminate.
Qed.

(** The prompt of /generate-alternatives ends with the instructions for
    MCQ options exactly when the request asks for MCQ questions. *)
Theorem alternatives_prompt_options_iff_mcq (req : AlternativeRequest.t) :
  (exists pre, build_alternatives_prompt req = pre ++ alt_mcq_fields ++ alt_return) <->
  AlternativeRequest.questionType req = MCQ.
Proof.
  unfold build_alternatives_prompt. cbv zeta.
  destruct (AlternativeRequest.questionType req); split; try discriminate;
    try (intros _; eexists; rewrite <- app_assoc; reflexivity);
    intros (pre & H); exfalso; rewrite !app_assoc in H; apply app_inv_tail in H;
    eapply alt_fields_no_mcq_suffix; exact H.
Qed.
